(** * A Markov-chain model of an epidemic: the notebook
      [projects/interactive_markov_covid-16.ipynb]

    The notebook computes with Python floats and NumPy float64 scalars.
    Numbers are modelled here by exact rationals ([Q]): every finite value
    is the rational the expression denotes, and rounding is left out.  The
    two ways in which the source treats a zero divisor are kept apart:

    - a division of Python floats raises [ZeroDivisionError]
      ([float_div]);
    - a division of NumPy scalars raises nothing and yields nan or an
      infinity ([f64_div]); the special values then travel through the
      matrix product and make [int(...)] raise ([int]).

    Equalities between rationals are stated with [==] ([Qeq]). *)

From Stdlib Require Import QArith Qabs Qround ZArith List Bool Lia Lqa.
Import ListNotations.
Open Scope Q_scope.

(** ** Exceptions and results *)

Inductive exn : Type :=
| ZeroDivisionError
| IndexError
| ValueError
| OverflowError.

Inductive result (A : Type) : Type :=
| Ok (a : A)
| Raise (e : exn).

Arguments Ok {A} a.
Arguments Raise {A} e.

Definition bind {A B : Type} (r : result A) (k : A -> result B) : result B :=
  match r with
  | Ok a => k a
  | Raise e => Raise e
  end.

Notation "x <- e ;; k" := (bind e (fun x => k))
  (at level 61, e at next level, right associativity).

Fixpoint mapM {A B : Type} (f : A -> result B) (l : list A) : result (list B) :=
  match l with
  | [] => Ok []
  | a :: l' => b <- f a ;; bs <- mapM f l' ;; Ok (b :: bs)
  end.

(** [for x in xs: st = body(st, x)] *)
Fixpoint for_loop {St A : Type} (body : St -> A -> result St)
    (xs : list A) (st : St) : result St :=
  match xs with
  | [] => Ok st
  | x :: xs' => st' <- body st x ;; for_loop body xs' st'
  end.

(** [range(0, n)] *)
Definition range (n : Z) : list Z := map Z.of_nat (seq 0 (Z.to_nat n)).

(** [l[i]] for a non-negative index *)
Definition getitem {A : Type} (l : list A) (i : nat) : result A :=
  match nth_error l i with
  | Some a => Ok a
  | None => Raise IndexError
  end.

(** ** Python floats *)

(** [a / b] on Python floats *)
Definition float_div (a b : Q) : result Q :=
  if Qeq_bool b 0 then Raise ZeroDivisionError else Ok (a / b).

(** [sum(l)] *)
Definition py_sum (l : list Q) : Q := fold_left Qplus l 0.

(** ** NumPy float64 scalars *)

Inductive float64 : Type :=
| Fin (q : Q)
| NaN
| Inf (negative : bool).

Definition Qneg (q : Q) : bool := negb (Qle_bool 0 q).

Definition f64_add (x y : float64) : float64 :=
  match x, y with
  | Fin a, Fin b => Fin (a + b)
  | NaN, _ | _, NaN => NaN
  | Inf s, Fin _ | Fin _, Inf s => Inf s
  | Inf s, Inf t => if eqb s t then Inf s else NaN
  end.

Definition f64_sub (x y : float64) : float64 :=
  match x, y with
  | Fin a, Fin b => Fin (a - b)
  | NaN, _ | _, NaN => NaN
  | Inf s, Fin _ => Inf s
  | Fin _, Inf s => Inf (negb s)
  | Inf s, Inf t => if eqb s t then NaN else Inf s
  end.

Definition f64_mul (x y : float64) : float64 :=
  match x, y with
  | Fin a, Fin b => Fin (a * b)
  | NaN, _ | _, NaN => NaN
  | Inf s, Fin b | Fin b, Inf s =>
      if Qeq_bool b 0 then NaN else Inf (xorb s (Qneg b))
  | Inf s, Inf t => Inf (xorb s t)
  end.

(** A zero divisor is taken as [+0.0]: the sign of the infinity is the
    sign of the dividend. *)
Definition f64_div (x y : float64) : float64 :=
  match x, y with
  | Fin a, Fin b =>
      if Qeq_bool b 0
      then (if Qeq_bool a 0 then NaN else Inf (Qneg a))
      else Fin (a / b)
  | NaN, _ | _, NaN => NaN
  | Fin _, Inf _ => Fin 0
  | Inf s, Fin b => Inf (xorb s (Qneg b))
  | Inf _, Inf _ => NaN
  end.

(** Truncation towards zero. *)
Definition Qtruncate (q : Q) : Z := Z.quot (Qnum q) (Zpos (Qden q)).

(** [int(x)]: truncation towards zero; nan and the infinities raise. *)
Definition int (x : float64) : result Z :=
  match x with
  | Fin q => Ok (Qtruncate q)
  | NaN => Raise ValueError
  | Inf _ => Raise OverflowError
  end.

(** [np.array(l)] of a list of Python floats *)
Definition np_array (l : list Q) : list float64 := map Fin l.

(** [np.dot(a, b)] of a vector and a matrix: entry [j] is the sum over
    [i] of [a[i] * b[i][j]]; the shapes must agree. *)
Definition inner (a col : list float64) : float64 :=
  fold_left (fun acc p => f64_add acc (f64_mul (fst p) (snd p)))
            (combine a col) (Fin 0).

Definition column (j : nat) (b : list (list float64)) : list float64 :=
  map (fun row => nth j row (Fin 0)) b.

Definition np_dot (a : list float64) (b : list (list float64))
  : result (list float64) :=
  if (length a =? length b)%nat
  then Ok (map (fun j => inner a (column j b))
               (seq 0 (length (hd [] b))))
  else Raise ValueError.

(** ** The notebook's cells *)

Inductive state : Type := sH | sC | sS | sX | sD | sI.

Definition states : list state := [sH; sC; sS; sX; sD; sI].

Definition state_index (s : state) : nat :=
  match s with
  | sH => 0 | sC => 1 | sS => 2 | sX => 3 | sD => 4 | sI => 5
  end%nat.

(** The literals of the notebook: the constants of the cells
    "PROBABILITY ASSUMPTIONS" and "TIME ASSUMPTIONS", and [R_0]. *)
Record assumptions : Type := {
  R_0 : list Q;
  lenght_of_sickness_for_R_0 : Q;
  asymptomatic_carriers_vs_all : Q;
  w_sum_cdc : Q;
  (* the literal [(1.8+3.4)/2] of the line that sets [dr_cdc] *)
  death_rate_cdc : Q;
  carrier_to_symptomatic_avg : Q;
  carrier_to_immune_avg : Q;
  symptomatic_to_immune_avg : Q;
  symptomatic_to_hospitalizable_avg : Q;
  hospitalizable_to_death_avg : Q;
  hospitalizable_to_immune_avg : Q
}.

Definition notebook : assumptions := {|
  R_0 := [2.5; 1.7; 0.9];
  lenght_of_sickness_for_R_0 := 20;
  asymptomatic_carriers_vs_all := 0.60;
  w_sum_cdc :=
    (123 * py_sum [1.6; 2.5] / 2 + 705 * py_sum [14.3; 20.8] / 2
     + 429 * py_sum [21.2; 28.3] / 2 + 429 * py_sum [20.5; 30.1] / 2
     + 409 * py_sum [28.6; 43.5] / 2 + 210 * py_sum [30.5; 58.7] / 2
     + 144 * py_sum [31.3; 70.3] / 2) / 2449;
  death_rate_cdc := (1.8 + 3.4) / 2;
  carrier_to_symptomatic_avg := 6;
  carrier_to_immune_avg := 10;
  symptomatic_to_immune_avg := 11;
  symptomatic_to_hospitalizable_avg := 5;
  hospitalizable_to_death_avg := 4;
  hospitalizable_to_immune_avg := 12
|}.

(** The module-level names the functions read. *)
Record globals : Type := {
  given : assumptions;
  prob_symptomatic_from_carrier : Q;
  prob_immune_from_carrier : Q;
  prob_hospitalizable_from_symptomatic : Q;
  prob_immune_from_symptomatic : Q;
  prob_dead_from_hospitalizable : Q;
  prob_immune_from_hospitalizable : Q;
  cs : Q; ci : Q; sx : Q; si : Q; xd : Q; xi : Q
}.

(** The cells "PROBABILITY ASSUMPTIONS" and "TRANSITION PROBABILITIES",
    run on the literals [a]. *)
Definition parameter_cells (a : assumptions) : result globals :=
  let prob_symptomatic_from_carrier := 1 - asymptomatic_carriers_vs_all a in
  let prob_immune_from_carrier := 1 - prob_symptomatic_from_carrier in
  let prob_hospitalizable_from_symptomatic := w_sum_cdc a / 100 in
  let prob_immune_from_symptomatic := 1 - prob_hospitalizable_from_symptomatic in
  dr_cdc <- float_div (death_rate_cdc a) prob_hospitalizable_from_symptomatic ;;
  let prob_dead_from_hospitalizable := dr_cdc / 100 in
  let prob_immune_from_hospitalizable := 1 - prob_dead_from_hospitalizable in
  cs <- float_div (prob_symptomatic_from_carrier * 1) (carrier_to_symptomatic_avg a) ;;
  ci <- float_div (prob_immune_from_carrier * 1) (carrier_to_immune_avg a) ;;
  sx <- float_div (prob_hospitalizable_from_symptomatic * 1)
                  (symptomatic_to_hospitalizable_avg a) ;;
  si <- float_div (prob_immune_from_symptomatic * 1) (symptomatic_to_immune_avg a) ;;
  xd <- float_div (prob_dead_from_hospitalizable * 1) (hospitalizable_to_death_avg a) ;;
  xi <- float_div (prob_immune_from_hospitalizable * 1)
                  (hospitalizable_to_immune_avg a) ;;
  Ok {| given := a;
        prob_symptomatic_from_carrier := prob_symptomatic_from_carrier;
        prob_immune_from_carrier := prob_immune_from_carrier;
        prob_hospitalizable_from_symptomatic := prob_hospitalizable_from_symptomatic;
        prob_immune_from_symptomatic := prob_immune_from_symptomatic;
        prob_dead_from_hospitalizable := prob_dead_from_hospitalizable;
        prob_immune_from_hospitalizable := prob_immune_from_hospitalizable;
        cs := cs; ci := ci; sx := sx; si := si; xd := xd; xi := xi |}.

(** *** TRANSMISSION MODEL *)

Section Transmission.

Variable g : globals.

(** The line that sets [hc]. *)
Definition hc_of (population : list float64) (countermeasures : nat)
  : result float64 :=
  H <- getitem population (state_index sH) ;;
  C <- getitem population (state_index sC) ;;
  S <- getitem population (state_index sS) ;;
  X <- getitem population (state_index sX) ;;
  D <- getitem population (state_index sD) ;;
  I <- getitem population (state_index sI) ;;
  r <- getitem (R_0 (given g)) countermeasures ;;
  k <- float_div r (lenght_of_sickness_for_R_0 (given g)) ;;
  Ok (f64_div (f64_mul (Fin k) (f64_add (f64_add C S) X))
              (f64_add (f64_add (f64_add (f64_add H C) S) X) I)).

(** The array [covid_19]. *)
Definition covid_19 (hc : float64) : list (list float64) :=
  [ [f64_sub (Fin 1) hc; hc; Fin 0; Fin 0; Fin 0; Fin 0];
    [Fin 0; Fin (1 - cs g - ci g); Fin (cs g); Fin 0; Fin 0; Fin (ci g)];
    [Fin 0; Fin 0; Fin (1 - sx g - si g); Fin (sx g); Fin 0; Fin (si g)];
    [Fin 0; Fin 0; Fin 0; Fin (1 - xd g - xi g); Fin (xd g); Fin (xi g)];
    [Fin 0; Fin 0; Fin 0; Fin 0; Fin 1; Fin 0];
    [Fin 0; Fin 0; Fin 0; Fin 0; Fin 0; Fin 1] ].

(** [covid_19_one_day] up to the transition matrix.  [population] is a
    NumPy array, as in the call made by [simulate_covid19]. *)
Definition transition_matrix (population : list float64) (countermeasures : nat)
  : result (list (list float64)) :=
  hc <- hc_of population countermeasures ;;
  Ok (covid_19 hc).

Definition covid_19_one_day (population : list float64) (countermeasures : nat)
  : result (list float64) :=
  covid_19 <- transition_matrix population countermeasures ;;
  np_dot population covid_19.

(** *** [simulate_covid19] *)

(** The arguments [Healthy], [Dead], [Immune] after [float(...)], up to
    the first [pop_vector]. *)
Definition seed_population (Healthy Dead Immune : Q) : result (list Q) :=
  Hospitalizable <-
    float_div (Dead * (1 - prob_dead_from_hospitalizable g))
              (prob_dead_from_hospitalizable g) ;;
  Symptomatic <-
    float_div (Hospitalizable * (1 - prob_hospitalizable_from_symptomatic g))
              (prob_hospitalizable_from_symptomatic g) ;;
  Carriers <-
    float_div (Symptomatic * (1 - prob_symptomatic_from_carrier g))
              (prob_symptomatic_from_carrier g) ;;
  Ok [Healthy; Carriers; Symptomatic; Hospitalizable; Dead; Immune].

(** The variables of the loop. *)
Record loop_state : Type := {
  countermeasures : nat;
  population_vector : list float64;
  evolution : list (list Z)
}.

(** The two [if]s that update the government countermeasures. *)
Definition update_countermeasures (social_distance_after lockdown_after : Z)
    (countermeasures : nat) (day : Z) : nat :=
  let countermeasures :=
    if (day >=? social_distance_after)%Z then 1%nat else countermeasures in
  let countermeasures :=
    if (day >=? lockdown_after)%Z then 2%nat else countermeasures in
  countermeasures.

Definition loop_body (all_population : Q)
    (social_distance_after lockdown_after : Z)
    (st : loop_state) (day : Z) : result loop_state :=
  let countermeasures :=
    update_countermeasures social_distance_after lockdown_after
                           (countermeasures st) day in
  population_vector <- covid_19_one_day (population_vector st) countermeasures ;;
  state <- mapM (fun num => int (f64_mul num (Fin all_population)))
                population_vector ;;
  Ok {| countermeasures := countermeasures;
        population_vector := population_vector;
        evolution := evolution st ++ [state] |}.

(** The lines between the seed and the loop: [all_population] and the
    normalised [pop_vector]. *)
Definition normalized_seed (Healthy Dead Immune : Q) : result (Q * list Q) :=
  pop_vector <- seed_population Healthy Dead Immune ;;
  let all_population := py_sum pop_vector in
  pop_vector <- mapM (fun num => float_div num all_population) pop_vector ;;
  Ok (all_population, pop_vector).

Definition initial_state (pop_vector : list Q) : loop_state :=
  {| countermeasures := 0;
     population_vector := np_array pop_vector;
     evolution := [] |}.

(** The state of the loop when it ends. *)
Definition simulation (Healthy Dead Immune : Q)
    (total_days social_distance_after lockdown_after : Z) : result loop_state :=
  seed <- normalized_seed Healthy Dead Immune ;;
  for_loop (loop_body (fst seed) social_distance_after lockdown_after)
           (range total_days)
           (initial_state (snd seed)).

(** [simulate_covid19] up to the end of the loop: the array [evolution]
    that it hands to [plot_evolution] and [stats_evolution]. *)
Definition simulate_covid19 (Healthy Dead Immune : Q)
    (total_days social_distance_after lockdown_after : Z)
  : result (list (list Z)) :=
  st <- simulation Healthy Dead Immune total_days
                   social_distance_after lockdown_after ;;
  Ok (evolution st).

End Transmission.

(** *** [plot_evolution] *)

(** [l[i] = a] on a list or a one-dimensional array *)
Fixpoint setitem {A : Type} (l : list A) (i : nat) (a : A) : result (list A) :=
  match l, i with
  | [], _ => Raise IndexError
  | _ :: l', O => Ok (a :: l')
  | x :: l', S i' => l'' <- setitem l' i' a ;; Ok (x :: l'')
  end.

(** [np.empty_like(l)]: an array of the length of [l] that holds
    whatever the memory held, [memory k] at position [k]. *)
Definition empty_like (memory : nat -> nat) (l : list nat) : list nat :=
  map memory (seq 0 (length l)).

(** [idx[permutation] = np.arange(len(permutation))] *)
Definition scatter_arange (idx permutation : list nat) : result (list nat) :=
  for_loop (fun idx pk => setitem idx (fst pk) (snd pk))
           (combine permutation (seq 0 (length permutation))) idx.

(** [a[:, idx]] of the array made from the nested list [a]; the array
    has two dimensions when [a] is not empty and its rows have one
    length. *)
Definition take_columns (a : list (list Z)) (idx : list nat)
  : result (list (list Z)) :=
  match a with
  | [] => Raise IndexError
  | row :: rest =>
      if forallb (fun r => (length r =? length row)%nat) rest
      then mapM (fun r => mapM (getitem r) idx) a
      else Raise IndexError
  end.

(** [plot_evolution] up to the DataFrame [df]: its data and the labels
    of its columns. *)
Definition plot_evolution {A : Type} (memory : nat -> nat)
    (evolution : list (list Z)) (labels : list A)
  : result (list (list Z) * list A) :=
  let permutation := [5; 0; 1; 2; 3; 4]%nat in
  let evo_for_plot := evolution in
  let idx := empty_like memory permutation in
  idx <- scatter_arange idx permutation ;;
  rearranged <- take_columns evo_for_plot idx ;;
  evo_for_plot <-
    (if forallb (fun r => (length r =? length idx)%nat) evo_for_plot
     then Ok rearranged else Raise ValueError) ;;
  labels_for_plot <-
    for_loop (fun labels_for_plot i =>
                x <- getitem labels i ;;
                p <- getitem permutation i ;;
                setitem labels_for_plot p x)
             (seq 0 (length labels)) labels ;;
  if (length labels_for_plot =? length idx)%nat
  then Ok (evo_for_plot, labels_for_plot)
  else Raise ValueError.

(** The first entry of a list moved to its end. *)
Definition rotate {A : Type} (l : list A) : list A := tl l ++ firstn 1 l.

(** *** [stats_evolution] *)

(** The peak that [stats_evolution] prints as "Highest peak of
    hospitalizable people", from the array [evolution]. *)
Definition max_hospitalized (evolution : list (list Z)) : result Z :=
  final_state <- getitem evolution (length evolution - 1) ;;
  for_loop (fun max_hospitalized state_day =>
              X <- getitem state_day (state_index sX) ;;
              Ok (if (X >? max_hospitalized)%Z then X else max_hospitalized))
           evolution 0%Z.

(** The globals that the cells leave for the literals [a]. *)
Definition globals_of (a : assumptions) : globals :=
  match parameter_cells a with
  | Ok g => g
  | Raise _ =>
      {| given := a;
         prob_symptomatic_from_carrier := 0; prob_immune_from_carrier := 0;
         prob_hospitalizable_from_symptomatic := 0;
         prob_immune_from_symptomatic := 0;
         prob_dead_from_hospitalizable := 0;
         prob_immune_from_hospitalizable := 0;
         cs := 0; ci := 0; sx := 0; si := 0; xd := 0; xi := 0 |}
  end.

(** The globals of the notebook as it stands. *)
Definition notebook_globals : globals := globals_of notebook.

(** ** What the claims speak of *)

(** The active phase in the words of the specification: the last phase
    of the schedule whose onset is at most the day.  [onsets] lists the
    onset of each phase by index. *)
Fixpoint last_phase_from (i : nat) (onsets : list Z) (day : Z) (acc : nat) : nat :=
  match onsets with
  | [] => acc
  | o :: rest =>
      last_phase_from (S i) rest day (if (o <=? day)%Z then i else acc)
  end.

Definition active_phase (onsets : list Z) (day : Z) : nat :=
  last_phase_from 0 onsets day 0.

(** [sum(row)] of a row of the matrix. *)
Definition f64_sum (row : list float64) : float64 :=
  fold_left f64_add row (Fin 0).

(** A float64 that is a number equal to [q]. *)
Definition is_number (x : float64) (q : Q) : Prop :=
  match x with
  | Fin p => p == q
  | _ => False
  end.

(** [sum(state)] of a row of [evolution]. *)
Definition Zsum (row : list Z) : Z := fold_left Z.add row 0%Z.

(** The sum of a reported row agrees with the total within the relative
    tolerance [1e-6]. *)
Definition conserved (total : Q) (row : list Z) : Prop :=
  Qabs (inject_Z (Zsum row) - total) <= 0.000001 * total.

(** Conditions on the globals under which the rates are probabilities:
    every one-day rate lies in [[0, 1]], the exits of a state sum to at
    most 1, and the three ratios of the seed are positive (the share of
    deaths among the hospitalizable below 1). *)
Definition Qlt_bool (x y : Q) : bool := negb (Qle_bool y x).

Definition rates_in_range (g : globals) : bool :=
  (3 <=? length (R_0 (given g)))%nat
  && negb (Qeq_bool (lenght_of_sickness_for_R_0 (given g)) 0)
  && forallb (fun r =>
                Qle_bool 0 (r / lenght_of_sickness_for_R_0 (given g))
                && Qle_bool (r / lenght_of_sickness_for_R_0 (given g)) 1)
             (R_0 (given g))
  && Qle_bool 0 (cs g) && Qle_bool 0 (ci g) && Qle_bool (cs g + ci g) 1
  && Qle_bool 0 (sx g) && Qle_bool 0 (si g) && Qle_bool (sx g + si g) 1
  && Qle_bool 0 (xd g) && Qle_bool 0 (xi g) && Qle_bool (xd g + xi g) 1
  && Qlt_bool (xd g) 1
  && Qlt_bool 0 (prob_dead_from_hospitalizable g)
  && Qlt_bool (prob_dead_from_hospitalizable g) 1
  && Qlt_bool 0 (prob_hospitalizable_from_symptomatic g)
  && Qle_bool (prob_hospitalizable_from_symptomatic g) 1
  && Qlt_bool 0 (prob_symptomatic_from_carrier g)
  && Qle_bool (prob_symptomatic_from_carrier g) 1.

(** ** Notions used in the proofs *)

(** The value of [hc] where the contact pool is not empty. *)
Definition hc_value (g : globals) (r h c s x i : Q) : Q :=
  r / lenght_of_sickness_for_R_0 (given g) * (c + s + x) / (h + c + s + x + i).

(** The product [np.dot(population, covid_19)], entry by entry. *)
Definition next_vector (g : globals) (hc h c s x d i : Q) : list Q :=
  [ 0 + h * (1 - hc) + c * 0 + s * 0 + x * 0 + d * 0 + i * 0;
    0 + h * hc + c * (1 - cs g - ci g) + s * 0 + x * 0 + d * 0 + i * 0;
    0 + h * 0 + c * cs g + s * (1 - sx g - si g) + x * 0 + d * 0 + i * 0;
    0 + h * 0 + c * 0 + s * sx g + x * (1 - xd g - xi g) + d * 0 + i * 0;
    0 + h * 0 + c * 0 + s * 0 + x * xd g + d * 1 + i * 0;
    0 + h * 0 + c * ci g + s * si g + x * xi g + d * 0 + i * 1 ].

(** A vector of population fractions: six non-negative numbers that sum
    to 1, with somebody alive. *)
Definition fractions (v : list Q) : Prop :=
  exists h c s x d i,
    v = [h; c; s; x; d; i]
    /\ 0 <= h /\ 0 <= c /\ 0 <= s /\ 0 <= x /\ 0 <= d /\ 0 <= i
    /\ 0 < h + c + s + x + i
    /\ h + c + s + x + d + i == 1.

(** What [rates_in_range] says, as propositions. *)
Record in_range (g : globals) : Prop := {
  ir_len : (3 <= length (R_0 (given g)))%nat;
  ir_L : ~ lenght_of_sickness_for_R_0 (given g) == 0;
  ir_R0 : forall r, In r (R_0 (given g)) ->
          0 <= r / lenght_of_sickness_for_R_0 (given g) <= 1;
  ir_cs : 0 <= cs g; ir_ci : 0 <= ci g; ir_c : cs g + ci g <= 1;
  ir_sx : 0 <= sx g; ir_si : 0 <= si g; ir_s : sx g + si g <= 1;
  ir_xd : 0 <= xd g; ir_xi : 0 <= xi g; ir_x : xd g + xi g <= 1;
  ir_xd1 : xd g < 1;
  ir_pd0 : 0 < prob_dead_from_hospitalizable g;
  ir_pd1 : prob_dead_from_hospitalizable g < 1;
  ir_ph0 : 0 < prob_hospitalizable_from_symptomatic g;
  ir_ph1 : prob_hospitalizable_from_symptomatic g <= 1;
  ir_ps0 : 0 < prob_symptomatic_from_carrier g;
  ir_ps1 : prob_symptomatic_from_carrier g <= 1
}.

(** One call of [covid_19_one_day] on a vector of six numbers. *)
Definition step (g : globals) (cm : nat) (v : list Q) : list Q :=
  match v with
  | [h; c; s; x; d; i] =>
      next_vector g (hc_value g (nth cm (R_0 (given g)) 0) h c s x i) h c s x d i
  | _ => v
  end.

(** The row appended to [evolution] for a population vector. *)
Definition head_counts (all_population : Q) (v : list Q) : list Z :=
  map (fun q => Qtruncate (q * all_population)) v.

(** The value of [countermeasures] after [n] days. *)
Fixpoint countermeasures_after (sda la : Z) (n : nat) : nat :=
  match n with
  | O => O
  | S n' =>
      update_countermeasures sda la (countermeasures_after sda la n') (Z.of_nat n')
  end.

(** The population vector after [n] days. *)
Fixpoint vector_after (g : globals) (sda la : Z) (v0 : list Q) (n : nat) : list Q :=
  match n with
  | O => v0
  | S n' =>
      step g (countermeasures_after sda la (S n')) (vector_after g sda la v0 n')
  end.

(** The loop after [n] days. *)
Definition state_after (g : globals) (all_population : Q) (sda la : Z)
    (v0 : list Q) (n : nat) : result loop_state :=
  for_loop (loop_body g all_population sda la) (range (Z.of_nat n))
           (initial_state v0).

(** Every row of the matrix sums to 1. *)
Definition row_stochastic (M : list (list float64)) : Prop :=
  Forall (fun row => is_number (f64_sum row) 1) M.

(** Every entry of the matrix is a number between 0 and 1. *)
Definition probabilities (M : list (list float64)) : Prop :=
  Forall (Forall (fun e => exists q, e = Fin q /\ 0 <= q <= 1)) M.

(** The notebook with half a day for each of the two sojourns of a
    carrier. *)
Definition half_day_carriers : assumptions := {|
  R_0 := R_0 notebook;
  lenght_of_sickness_for_R_0 := lenght_of_sickness_for_R_0 notebook;
  asymptomatic_carriers_vs_all := asymptomatic_carriers_vs_all notebook;
  w_sum_cdc := w_sum_cdc notebook;
  death_rate_cdc := death_rate_cdc notebook;
  carrier_to_symptomatic_avg := 0.5;
  carrier_to_immune_avg := 0.5;
  symptomatic_to_immune_avg := symptomatic_to_immune_avg notebook;
  symptomatic_to_hospitalizable_avg := symptomatic_to_hospitalizable_avg notebook;
  hospitalizable_to_death_avg := hospitalizable_to_death_avg notebook;
  hospitalizable_to_immune_avg := hospitalizable_to_immune_avg notebook
|}.

(** The notebook with a death rate of 0 among the symptomatic. *)
Definition no_deaths : assumptions := {|
  R_0 := R_0 notebook;
  lenght_of_sickness_for_R_0 := lenght_of_sickness_for_R_0 notebook;
  asymptomatic_carriers_vs_all := asymptomatic_carriers_vs_all notebook;
  w_sum_cdc := w_sum_cdc notebook;
  death_rate_cdc := 0;
  carrier_to_symptomatic_avg := carrier_to_symptomatic_avg notebook;
  carrier_to_immune_avg := carrier_to_immune_avg notebook;
  symptomatic_to_immune_avg := symptomatic_to_immune_avg notebook;
  symptomatic_to_hospitalizable_avg := symptomatic_to_hospitalizable_avg notebook;
  hospitalizable_to_death_avg := hospitalizable_to_death_avg notebook;
  hospitalizable_to_immune_avg := hospitalizable_to_immune_avg notebook
|}.

(** ** Enclosures *)

(** The grid of the enclosures: a bound is an integer [z] standing for
    [z / scale]. *)
Definition scale : positive := (2 ^ 64)%positive.

Definition val (z : Z) : Q := Qmake z scale.

(** [z / scale * r], rounded down and up to the grid. *)
Definition mul_dn (z : Z) (r : Q) : Z := (z * Qnum r) / Zpos (Qden r).

Definition mul_up (z : Z) (r : Q) : Z := - ((- (z * Qnum r)) / Zpos (Qden r)).

(** [k * (n / scale) / (d / scale)], rounded down and up to the grid. *)
Definition div_dn (k : Q) (n d : Z) : Z :=
  (Qnum k * n * Zpos scale) / (Zpos (Qden k) * d).

Definition div_up (k : Q) (n d : Z) : Z :=
  - ((- (Qnum k * n * Zpos scale)) / (Zpos (Qden k) * d)).

(** An interval for each entry of a population vector. *)
Record box : Type := {
  bH : Z * Z; bC : Z * Z; bS : Z * Z; bX : Z * Z; bD : Z * Z; bI : Z * Z
}.

Definition within (iv : Z * Z) (q : Q) : Prop :=
  val (fst iv) <= q <= val (snd iv).

Definition contains (b : box) (v : list Q) : Prop :=
  exists h c s x d i,
    v = [h; c; s; x; d; i]
    /\ within (bH b) h /\ within (bC b) c /\ within (bS b) s
    /\ within (bX b) x /\ within (bD b) d /\ within (bI b) i.

Definition enclose (q : Q) : Z * Z :=
  (Qfloor (q * inject_Z (Zpos scale)), Qceiling (q * inject_Z (Zpos scale))).

Definition box_of (v : list Q) : box :=
  {| bH := enclose (nth 0 v 0); bC := enclose (nth 1 v 0);
     bS := enclose (nth 2 v 0); bX := enclose (nth 3 v 0);
     bD := enclose (nth 4 v 0); bI := enclose (nth 5 v 0) |}.

(** The globals with every rate in lowest terms. *)
Definition reduced (g : globals) : globals :=
  {| given :=
       {| R_0 := map Qred (R_0 (given g));
          lenght_of_sickness_for_R_0 := Qred (lenght_of_sickness_for_R_0 (given g));
          asymptomatic_carriers_vs_all := asymptomatic_carriers_vs_all (given g);
          w_sum_cdc := w_sum_cdc (given g);
          death_rate_cdc := death_rate_cdc (given g);
          carrier_to_symptomatic_avg := carrier_to_symptomatic_avg (given g);
          carrier_to_immune_avg := carrier_to_immune_avg (given g);
          symptomatic_to_immune_avg := symptomatic_to_immune_avg (given g);
          symptomatic_to_hospitalizable_avg :=
            symptomatic_to_hospitalizable_avg (given g);
          hospitalizable_to_death_avg := hospitalizable_to_death_avg (given g);
          hospitalizable_to_immune_avg := hospitalizable_to_immune_avg (given g) |};
     prob_symptomatic_from_carrier := prob_symptomatic_from_carrier g;
     prob_immune_from_carrier := prob_immune_from_carrier g;
     prob_hospitalizable_from_symptomatic := prob_hospitalizable_from_symptomatic g;
     prob_immune_from_symptomatic := prob_immune_from_symptomatic g;
     prob_dead_from_hospitalizable := prob_dead_from_hospitalizable g;
     prob_immune_from_hospitalizable := prob_immune_from_hospitalizable g;
     cs := Qred (cs g); ci := Qred (ci g); sx := Qred (sx g);
     si := Qred (si g); xd := Qred (xd g); xi := Qred (xi g) |}.

(** Bounds on [hc] over a box. *)
Definition hc_bounds (rt : globals) (cm : nat) (b : box) : Z * Z :=
  let k := nth cm (R_0 (given rt)) 0 / lenght_of_sickness_for_R_0 (given rt) in
  (div_dn k (fst (bC b) + fst (bS b) + fst (bX b))
            (snd (bH b) + snd (bC b) + snd (bS b) + snd (bX b) + snd (bI b)),
   div_up k (snd (bC b) + snd (bS b) + snd (bX b))
            (fst (bH b) + fst (bC b) + fst (bS b) + fst (bX b) + fst (bI b))).

(** The side conditions under which [box_step] encloses a day. *)
Definition box_checks (rt : globals) (cm : nat) (b : box) : bool :=
  (0 <=? fst (bH b))%Z && (0 <=? fst (bC b))%Z
  && (0 <=? fst (bS b))%Z && (0 <=? fst (bX b))%Z
  && (0 <? fst (bH b) + fst (bC b) + fst (bS b) + fst (bX b) + fst (bI b))%Z
  && (0 <=? fst (hc_bounds rt cm b))%Z
  && (snd (hc_bounds rt cm b) <=? Zpos scale)%Z.

(** One day on a box: bounds of the entries of [next_vector], rounded
    outwards. *)
Definition box_step (rt : globals) (cm : nat) (b : box) : box :=
  let hc := hc_bounds rt cm b in
  let stay_c := 1 - cs rt - ci rt in
  let stay_s := 1 - sx rt - si rt in
  let stay_x := 1 - xd rt - xi rt in
  {| bH := (mul_dn (fst (bH b)) (val (Zpos scale - snd hc)),
            mul_up (snd (bH b)) (val (Zpos scale - fst hc)));
     bC := (mul_dn (fst (bH b)) (val (fst hc)) + mul_dn (fst (bC b)) stay_c,
            mul_up (snd (bH b)) (val (snd hc)) + mul_up (snd (bC b)) stay_c)%Z;
     bS := (mul_dn (fst (bC b)) (cs rt) + mul_dn (fst (bS b)) stay_s,
            mul_up (snd (bC b)) (cs rt) + mul_up (snd (bS b)) stay_s)%Z;
     bX := (mul_dn (fst (bS b)) (sx rt) + mul_dn (fst (bX b)) stay_x,
            mul_up (snd (bS b)) (sx rt) + mul_up (snd (bX b)) stay_x)%Z;
     bD := (mul_dn (fst (bX b)) (xd rt) + fst (bD b),
            mul_up (snd (bX b)) (xd rt) + snd (bD b))%Z;
     bI := (mul_dn (fst (bC b)) (ci rt) + mul_dn (fst (bS b)) (si rt)
            + mul_dn (fst (bX b)) (xi rt) + fst (bI b),
            mul_up (snd (bC b)) (ci rt) + mul_up (snd (bS b)) (si rt)
            + mul_up (snd (bX b)) (xi rt) + snd (bI b))%Z |}.

(** [n] days on boxes from day [day]: bounds on the largest
    Hospitalizable fraction met, if every side condition held. *)
Fixpoint box_run (rt : globals) (sda la : Z) (n day cm : nat) (b : box)
  : option (Z * Z) :=
  match n with
  | O => Some (0, 0)%Z
  | S n' =>
      let cm' := update_countermeasures sda la cm (Z.of_nat day) in
      if box_checks rt cm' b then
        let b' := box_step rt cm' b in
        match box_run rt sda la n' (S day) cm' b' with
        | Some (lo, hi) => Some (Z.max (fst (bX b')) lo, Z.max (snd (bX b')) hi)
        | None => None
        end
      else None
  end.

(** Bounds on the peak printed by [stats_evolution] for a run. *)
Definition peak_bounds (g : globals) (Healthy Dead Immune : Q)
    (total_days sda la : Z) : option (Z * Z) :=
  match normalized_seed g Healthy Dead Immune with
  | Ok (all_population, v0) =>
      match box_run (reduced g) sda la (Z.to_nat total_days) 0 0 (box_of v0) with
      | Some (lo, hi) =>
          if (0 <? lo)%Z
          then Some (Qtruncate (val lo * all_population),
                     Qtruncate (val hi * all_population))
          else None
      | None => None
      end
  | Raise _ => None
  end.

(** [n] days on boxes: an enclosure of the population vector after day
    [n], if every side condition held. *)
Fixpoint box_after (rt : globals) (sda la : Z) (n : nat) (b0 : box) : option box :=
  match n with
  | O => Some b0
  | S n' =>
      match box_after rt sda la n' b0 with
      | Some b =>
          let cm := countermeasures_after sda la (S n') in
          if box_checks rt cm b then Some (box_step rt cm b) else None
      | None => None
      end
  end.

(** Bounds on the entries of the row [evolution[d]] of a run. *)
Definition row_bounds (g : globals) (Healthy Dead Immune : Q)
    (sda la : Z) (d : nat) : option (list (Z * Z)) :=
  match normalized_seed g Healthy Dead Immune with
  | Ok (all_population, v0) =>
      match box_after (reduced g) sda la (S d) (box_of v0) with
      | Some b =>
          let ivs := [bH b; bC b; bS b; bX b; bD b; bI b] in
          if forallb (fun iv => (0 <=? fst iv)%Z) ivs
          then Some (map (fun iv => (Qtruncate (val (fst iv) * all_population),
                                     Qtruncate (val (snd iv) * all_population)))
                         ivs)
          else None
      | None => None
      end
  | Raise _ => None
  end.

(** The rates that one day reads agree in two sets of globals. *)
Definition same_rates (rt g : globals) : Prop :=
  Forall2 Qeq (R_0 (given rt)) (R_0 (given g))
  /\ lenght_of_sickness_for_R_0 (given rt) == lenght_of_sickness_for_R_0 (given g)
  /\ cs rt == cs g /\ ci rt == ci g /\ sx rt == sx g
  /\ si rt == si g /\ xd rt == xd g /\ xi rt == xi g.

(** Closed comparisons of rationals, by evaluation. *)
Ltac Qdecide := vm_compute; first [reflexivity | discriminate].

(** * Basic facts *)

Lemma float_div_ok (a b : Q) : ~ b == 0 -> float_div a b = Ok (a / b).
Proof.
  intros Hb. unfold float_div.
  destruct (Qeq_bool b 0) eqn:E; [|reflexivity].
  apply Qeq_bool_iff in E. contradiction.
Qed.

Lemma float_div_zero (a b : Q) : b == 0 -> float_div a b = Raise ZeroDivisionError.
Proof.
  intros Hb. unfold float_div.
  apply Qeq_bool_iff in Hb. now rewrite Hb.
Qed.

Lemma Qlt_bool_iff (x y : Q) : Qlt_bool x y = true <-> x < y.
Proof.
  unfold Qlt_bool. rewrite negb_true_iff.
  split; intros E.
  - apply Qnot_le_lt. intros Hle. apply Qle_bool_iff in Hle. congruence.
  - destruct (Qle_bool y x) eqn:F; [|reflexivity].
    apply Qle_bool_iff in F. apply Qle_not_lt in F. contradiction.
Qed.

Lemma for_loop_app {St A : Type} (body : St -> A -> result St)
    (xs ys : list A) (st : St) :
  for_loop body (xs ++ ys) st = (st' <- for_loop body xs st ;; for_loop body ys st').
Proof.
  revert st. induction xs as [|x xs IH]; intros st; simpl; [reflexivity|].
  destruct (body st x) as [st'|e]; simpl; [apply IH | reflexivity].
Qed.

Lemma range_succ (n : nat) :
  range (Z.of_nat (S n)) = range (Z.of_nat n) ++ [Z.of_nat n].
Proof.
  unfold range. rewrite !Nat2Z.id, seq_S, map_app. reflexivity.
Qed.

(** ** Truncation *)

Lemma Qtruncate_floor (q : Q) : 0 <= q -> Qtruncate q = Qfloor q.
Proof.
  destruct q as [n d]. unfold Qle, Qtruncate, Qfloor. simpl. intros Hn.
  apply Z.quot_div_nonneg; lia.
Qed.

Lemma Qtruncate_le (q : Q) : 0 <= q -> inject_Z (Qtruncate q) <= q.
Proof. intros Hq. rewrite (Qtruncate_floor q Hq). apply Qfloor_le. Qed.

Lemma Qtruncate_lt (q : Q) : 0 <= q -> q < inject_Z (Qtruncate q) + 1.
Proof.
  intros Hq. rewrite (Qtruncate_floor q Hq).
  pose proof (Qlt_floor q) as Hlt.
  rewrite inject_Z_plus in Hlt. exact Hlt.
Qed.

Lemma Qtruncate_mono (p q : Q) :
  0 <= p -> p <= q -> (Qtruncate p <= Qtruncate q)%Z.
Proof.
  intros Hp Hpq.
  rewrite (Qtruncate_floor p Hp), (Qtruncate_floor q) by lra.
  now apply Qfloor_resp_le.
Qed.

Lemma mapM_int_fin (all_population : Q) (v : list Q) :
  mapM (fun num => int (f64_mul num (Fin all_population))) (np_array v)
  = Ok (map (fun q => Qtruncate (q * all_population)) v).
Proof.
  induction v as [|q v IH]; [reflexivity|].
  unfold np_array in *. cbn [map mapM]. rewrite IH. reflexivity.
Qed.

(** ** The phases *)

Lemma update_countermeasures_cases (sda la : Z) (cm : nat) (day : Z) :
  update_countermeasures sda la cm day
  = if (la <=? day)%Z then 2%nat
    else if (sda <=? day)%Z then 1%nat else cm.
Proof.
  unfold update_countermeasures. rewrite !Z.geb_leb.
  destruct (la <=? day)%Z, (sda <=? day)%Z; reflexivity.
Qed.

Lemma update_countermeasures_le2 (sda la : Z) (cm : nat) (day : Z) :
  (cm <= 2)%nat -> (update_countermeasures sda la cm day <= 2)%nat.
Proof.
  intros Hcm. rewrite update_countermeasures_cases.
  destruct (la <=? day)%Z, (sda <=? day)%Z; lia.
Qed.

Lemma active_phase_cases (sda la day : Z) :
  (0 <= day)%Z ->
  active_phase [0%Z; sda; la] day
  = if (la <=? day)%Z then 2%nat
    else if (sda <=? day)%Z then 1%nat else 0%nat.
Proof.
  intros Hday. unfold active_phase. simpl.
  destruct (0 <=? day)%Z eqn:E0; [|apply Z.leb_gt in E0; lia].
  destruct (la <=? day)%Z, (sda <=? day)%Z; reflexivity.
Qed.

(** ** One day on a vector of numbers *)

Lemma Qeq_bool_false (a : Q) : ~ a == 0 -> Qeq_bool a 0 = false.
Proof.
  intros Ha. destruct (Qeq_bool a 0) eqn:E; [|reflexivity].
  apply Qeq_bool_iff in E. contradiction.
Qed.

Lemma hc_of_fin (g : globals) (cm : nat) (r h c s x d i : Q) :
  nth_error (R_0 (given g)) cm = Some r ->
  ~ lenght_of_sickness_for_R_0 (given g) == 0 ->
  ~ h + c + s + x + i == 0 ->
  hc_of g (np_array [h; c; s; x; d; i]) cm = Ok (Fin (hc_value g r h c s x i)).
Proof.
  intros Hr HL Hden. unfold hc_of, getitem. simpl. rewrite Hr. simpl.
  rewrite (float_div_ok _ _ HL). simpl.
  now rewrite (Qeq_bool_false _ Hden).
Qed.

Lemma covid_19_one_day_fin (g : globals) (cm : nat) (r h c s x d i : Q) :
  nth_error (R_0 (given g)) cm = Some r ->
  ~ lenght_of_sickness_for_R_0 (given g) == 0 ->
  ~ h + c + s + x + i == 0 ->
  covid_19_one_day g (np_array [h; c; s; x; d; i]) cm
  = Ok (np_array (next_vector g (hc_value g r h c s x i) h c s x d i)).
Proof.
  intros Hr HL Hden. unfold covid_19_one_day, transition_matrix.
  rewrite (hc_of_fin g cm r h c s x d i Hr HL Hden). reflexivity.
Qed.

Lemma rates_in_range_spec (g : globals) : rates_in_range g = true -> in_range g.
Proof.
  unfold rates_in_range. intros E.
  repeat (apply andb_prop in E; destruct E as [E ?]).
  repeat match goal with
         | Hb : Qle_bool _ _ = true |- _ => apply Qle_bool_iff in Hb
         | Hb : Qlt_bool _ _ = true |- _ => apply Qlt_bool_iff in Hb
         end.
  constructor; try assumption.
  - now apply Nat.leb_le.
  - intros Hz. apply Qeq_bool_iff in Hz.
    match goal with Hn : negb _ = true |- _ => rewrite Hz in Hn; discriminate end.
  - intros r Hr.
    match goal with
    | Hf : forallb _ _ = true |- _ =>
        rewrite forallb_forall in Hf; specialize (Hf r Hr);
        apply andb_prop in Hf; destruct Hf as [F1 F2]
    end.
    apply Qle_bool_iff in F1, F2. split; assumption.
Qed.

Lemma hc_value_range (g : globals) (r h c s x i : Q) :
  0 <= r / lenght_of_sickness_for_R_0 (given g) <= 1 ->
  0 <= h -> 0 <= c -> 0 <= s -> 0 <= x -> 0 <= i ->
  0 < h + c + s + x + i ->
  0 <= hc_value g r h c s x i <= 1.
Proof.
  intros [Hk0 Hk1] Hh Hc Hs Hx Hi Hden. unfold hc_value.
  set (k := r / lenght_of_sickness_for_R_0 (given g)) in *.
  assert (Hm : 0 <= k * (c + s + x)) by (apply Qmult_le_0_compat; lra).
  assert (Hm' : k * (c + s + x) <= c + s + x).
  { assert (Hn : 0 <= (1 - k) * (c + s + x)) by (apply Qmult_le_0_compat; lra).
    lra. }
  split.
  - apply Qle_shift_div_l; [assumption | lra].
  - apply Qle_shift_div_r; [assumption | lra].
Qed.

Lemma next_vector_fractions (g : globals) (hc h c s x d i : Q) :
  in_range g -> 0 <= hc <= 1 ->
  fractions [h; c; s; x; d; i] ->
  fractions (next_vector g hc h c s x d i).
Proof.
  intros G [Hhc0 Hhc1] (h0 & c0 & s0 & x0 & d0 & i0 & E & Hv).
  destruct Hv as (Hh & Hc & Hs & Hx & Hd & Hi & Hpool & Hsum).
  injection E as -> -> -> -> -> ->.
  destruct G.
  assert (P1 : 0 <= h0 * (1 - hc)) by (apply Qmult_le_0_compat; lra).
  assert (P2 : 0 <= h0 * hc) by (apply Qmult_le_0_compat; lra).
  assert (P3 : 0 <= c0 * (1 - cs g - ci g)) by (apply Qmult_le_0_compat; lra).
  assert (P4 : 0 <= c0 * cs g) by (apply Qmult_le_0_compat; lra).
  assert (P5 : 0 <= c0 * ci g) by (apply Qmult_le_0_compat; lra).
  assert (P6 : 0 <= s0 * (1 - sx g - si g)) by (apply Qmult_le_0_compat; lra).
  assert (P7 : 0 <= s0 * sx g) by (apply Qmult_le_0_compat; lra).
  assert (P8 : 0 <= s0 * si g) by (apply Qmult_le_0_compat; lra).
  assert (P9 : 0 <= x0 * (1 - xd g - xi g)) by (apply Qmult_le_0_compat; lra).
  assert (P10 : 0 <= x0 * xd g) by (apply Qmult_le_0_compat; lra).
  assert (P11 : 0 <= x0 * xi g) by (apply Qmult_le_0_compat; lra).
  assert (P12 : 0 < h0 + c0 + s0 + i0 + x0 * (1 - xd g)).
  { destruct (Qlt_le_dec 0 x0) as [Hpos|Hzero].
    - assert (0 < x0 * (1 - xd g)) by (apply Qmult_lt_0_compat; lra). lra.
    - assert (0 <= x0 * (1 - xd g)) by (apply Qmult_le_0_compat; lra). lra. }
  unfold next_vector. do 6 eexists.
  split; [reflexivity|].
  repeat split; try lra.
Qed.

Lemma next_vector_absorbing (g : globals) (hc h c s x d i : Q) :
  in_range g -> 0 <= c -> 0 <= s -> 0 <= x ->
  d <= nth 4 (next_vector g hc h c s x d i) 0
  /\ i <= nth 5 (next_vector g hc h c s x d i) 0.
Proof.
  intros G Hc Hs Hx. destruct G. simpl.
  assert (0 <= x * xd g) by (apply Qmult_le_0_compat; lra).
  assert (0 <= x * xi g) by (apply Qmult_le_0_compat; lra).
  assert (0 <= c * ci g) by (apply Qmult_le_0_compat; lra).
  assert (0 <= s * si g) by (apply Qmult_le_0_compat; lra).
  split; lra.
Qed.

(** ** The loop in closed form *)

Section Loop.

Variable g : globals.
Variables (all_population : Q) (sda la : Z) (v0 : list Q).

Lemma state_after_succ (n : nat) :
  state_after g all_population sda la v0 (S n)
  = (st <- state_after g all_population sda la v0 n ;;
     loop_body g all_population sda la st (Z.of_nat n)).
Proof.
  unfold state_after. rewrite range_succ, for_loop_app.
  destruct (for_loop _ (range (Z.of_nat n)) _) as [st|e]; simpl; [|reflexivity].
  now destruct (loop_body g all_population sda la st (Z.of_nat n)).
Qed.

Lemma countermeasures_after_le2 (n : nat) :
  (countermeasures_after sda la n <= 2)%nat.
Proof.
  induction n as [|n IH]; simpl; [lia|].
  now apply update_countermeasures_le2.
Qed.

Hypothesis G : in_range g.
Hypothesis Hv0 : fractions v0.

Lemma step_ok (cm : nat) (v : list Q) :
  (cm <= 2)%nat -> fractions v ->
  covid_19_one_day g (np_array v) cm = Ok (np_array (step g cm v))
  /\ fractions (step g cm v)
  /\ nth 4 v 0 <= nth 4 (step g cm v) 0
  /\ nth 5 v 0 <= nth 5 (step g cm v) 0.
Proof.
  intros Hcm Hv.
  destruct Hv
    as (h & c & s & x & d & i & E & Hh & Hc & Hs & Hx & Hd & Hi & Hpool & Hsum).
  subst v.
  assert (Hr : nth_error (R_0 (given g)) cm
               = Some (nth cm (R_0 (given g)) 0)).
  { apply nth_error_nth'. pose proof (ir_len g G). lia. }
  assert (Hk : 0 <= nth cm (R_0 (given g)) 0
                    / lenght_of_sickness_for_R_0 (given g) <= 1).
  { apply (ir_R0 g G). eapply nth_error_In; exact Hr. }
  cbn [step]. split; [|split].
  - apply covid_19_one_day_fin; [exact Hr | apply (ir_L g G) | lra].
  - apply next_vector_fractions; [exact G | now apply hc_value_range |].
    exists h, c, s, x, d, i. repeat split; assumption.
  - now apply next_vector_absorbing.
Qed.

Lemma vector_after_fractions (n : nat) : fractions (vector_after g sda la v0 n).
Proof.
  induction n as [|n IH]; [exact Hv0|].
  cbn [vector_after]. apply step_ok; [apply countermeasures_after_le2 | exact IH].
Qed.

Lemma state_after_closed (n : nat) :
  state_after g all_population sda la v0 n
  = Ok {| countermeasures := countermeasures_after sda la n;
          population_vector := np_array (vector_after g sda la v0 n);
          evolution :=
            map (fun k => head_counts all_population
                            (vector_after g sda la v0 (S k)))
                (seq 0 n) |}.
Proof.
  induction n as [|n IH]; [reflexivity|].
  rewrite state_after_succ, IH. cbn [bind].
  unfold loop_body. cbn [countermeasures population_vector evolution].
  destruct (step_ok (countermeasures_after sda la (S n))
              (vector_after g sda la v0 n)
              (countermeasures_after_le2 (S n)) (vector_after_fractions n))
    as (E & _).
  cbn [countermeasures_after] in E. rewrite E. cbn [bind].
  rewrite mapM_int_fin. cbn [bind].
  rewrite seq_S, map_app. reflexivity.
Qed.

Lemma dead_immune_after_mono (n m : nat) :
  (n <= m)%nat ->
  nth 4 (vector_after g sda la v0 n) 0 <= nth 4 (vector_after g sda la v0 m) 0
  /\ nth 5 (vector_after g sda la v0 n) 0
     <= nth 5 (vector_after g sda la v0 m) 0.
Proof.
  induction 1 as [|m Hle IH]; [split; apply Qle_refl|].
  destruct (step_ok (countermeasures_after sda la (S m))
              (vector_after g sda la v0 m)
              (countermeasures_after_le2 (S m)) (vector_after_fractions m))
    as (_ & _ & HD & HI).
  cbn [vector_after]. destruct IH as [IHD IHI]. split; lra.
Qed.

End Loop.

(** ** The seed *)

Lemma Qdiv_nonneg (a b : Q) : 0 <= a -> 0 < b -> 0 <= a / b.
Proof. intros Ha Hb. apply Qle_shift_div_l; [assumption | lra]. Qed.

Lemma Qdiv_pos (a b : Q) : 0 < a -> 0 < b -> 0 < a / b.
Proof. intros Ha Hb. apply Qlt_shift_div_l; [assumption | lra]. Qed.

Lemma seed_population_ok (g : globals) (Healthy Dead Immune : Q) :
  in_range g -> 0 <= Dead ->
  exists Carriers Symptomatic Hospitalizable,
    seed_population g Healthy Dead Immune
    = Ok [Healthy; Carriers; Symptomatic; Hospitalizable; Dead; Immune]
    /\ 0 <= Carriers /\ 0 <= Symptomatic /\ 0 <= Hospitalizable
    /\ (0 < Dead -> 0 < Hospitalizable).
Proof.
  intros G HD. destruct G. unfold seed_population.
  do 3 (rewrite float_div_ok by lra; cbn [bind]).
  set (pd := prob_dead_from_hospitalizable g) in *.
  set (ph := prob_hospitalizable_from_symptomatic g) in *.
  set (ps := prob_symptomatic_from_carrier g) in *.
  assert (HX : 0 <= Dead * (1 - pd) / pd).
  { apply Qdiv_nonneg; [apply Qmult_le_0_compat; lra | assumption]. }
  assert (HS : 0 <= Dead * (1 - pd) / pd * (1 - ph) / ph).
  { apply Qdiv_nonneg; [apply Qmult_le_0_compat; lra | assumption]. }
  assert (HC : 0 <= Dead * (1 - pd) / pd * (1 - ph) / ph * (1 - ps) / ps).
  { apply Qdiv_nonneg; [apply Qmult_le_0_compat; lra | assumption]. }
  do 3 eexists. split; [reflexivity|]. repeat split; try assumption.
  intros Hpos. apply Qdiv_pos; [apply Qmult_lt_0_compat; lra | assumption].
Qed.

Lemma normalized_seed_ok (g : globals) (Healthy Dead Immune : Q) :
  in_range g -> 0 <= Healthy -> 0 <= Dead -> 0 <= Immune ->
  0 < Healthy + Dead + Immune ->
  exists pop_vector v0,
    seed_population g Healthy Dead Immune = Ok pop_vector
    /\ normalized_seed g Healthy Dead Immune = Ok (py_sum pop_vector, v0)
    /\ 0 < py_sum pop_vector
    /\ fractions v0.
Proof.
  intros G HH HD HI Hpos.
  destruct (seed_population_ok g Healthy Dead Immune G HD)
    as (C & S & X & E & HC & HS & HX & HXpos).
  unfold normalized_seed. rewrite E. cbn [bind].
  set (all := py_sum [Healthy; C; S; X; Dead; Immune]).
  assert (Hall : all == Healthy + C + S + X + Dead + Immune).
  { unfold all, py_sum. simpl. ring. }
  assert (Hall0 : 0 < all).
  { rewrite Hall. lra. }
  assert (Hne : ~ all == 0) by lra.
  exists [Healthy; C; S; X; Dead; Immune].
  exists [Healthy / all; C / all; S / all; X / all; Dead / all; Immune / all].
  split; [reflexivity|]. split; [|split; [exact Hall0|]].
  - cbn [mapM]. rewrite !(float_div_ok _ _ Hne). reflexivity.
  - do 6 eexists. split; [reflexivity|].
    repeat split; try (apply Qdiv_nonneg; assumption).
    + assert (Hp : 0 < Healthy + C + S + X + Immune).
      { destruct (Qlt_le_dec 0 Dead) as [Hd|Hd]; [specialize (HXpos Hd)|]; lra. }
      apply (Qdiv_pos _ all) in Hp; [|exact Hall0].
      assert (Healthy / all + C / all + S / all + X / all + Immune / all
              == (Healthy + C + S + X + Immune) / all) as -> by (field; exact Hne).
      exact Hp.
    + assert (Healthy / all + C / all + S / all + X / all + Dead / all + Immune / all
              == (Healthy + C + S + X + Dead + Immune) / all) as -> by (field; exact Hne).
      rewrite <- Hall. field. exact Hne.
Qed.

(** ** The simulation in closed form *)

Lemma simulation_state_after (g : globals) (Healthy Dead Immune : Q)
    (total_days sda la : Z) (all_population : Q) (v0 : list Q) :
  normalized_seed g Healthy Dead Immune = Ok (all_population, v0) ->
  simulation g Healthy Dead Immune total_days sda la
  = state_after g all_population sda la v0 (Z.to_nat total_days).
Proof.
  intros E. unfold simulation, state_after. rewrite E. cbn [bind fst snd].
  unfold range. now rewrite Nat2Z.id.
Qed.

Lemma simulate_covid19_closed (g : globals) (Healthy Dead Immune : Q)
    (total_days sda la : Z) (all_population : Q) (v0 : list Q) :
  in_range g -> fractions v0 ->
  normalized_seed g Healthy Dead Immune = Ok (all_population, v0) ->
  simulate_covid19 g Healthy Dead Immune total_days sda la
  = Ok (map (fun k => head_counts all_population
                        (vector_after g sda la v0 (S k)))
            (seq 0 (Z.to_nat total_days))).
Proof.
  intros G Hv0 E. unfold simulate_covid19.
  rewrite (simulation_state_after g _ _ _ _ _ _ _ _ E).
  rewrite (state_after_closed g all_population sda la v0 G Hv0). reflexivity.
Qed.

(** * The transition matrix *)

Lemma transition_matrix_fin (g : globals) (cm : nat) (r h c s x d i : Q) :
  nth_error (R_0 (given g)) cm = Some r ->
  ~ lenght_of_sickness_for_R_0 (given g) == 0 ->
  ~ h + c + s + x + i == 0 ->
  transition_matrix g (np_array [h; c; s; x; d; i]) cm
  = Ok (covid_19 g (Fin (hc_value g r h c s x i))).
Proof.
  intros Hr HL Hden. unfold transition_matrix.
  now rewrite (hc_of_fin g cm r h c s x d i Hr HL Hden).
Qed.

Lemma covid_19_row_stochastic (g : globals) (hc : Q) :
  row_stochastic (covid_19 g (Fin hc)).
Proof.
  unfold row_stochastic, covid_19.
  repeat constructor; unfold f64_sum; simpl; ring.
Qed.

(** C1, as stated, fails where everybody is dead: the vector
    [(0, 0, 0, 0, 1, 0)] has non-negative entries, its contact pool is
    empty, [hc] is [0/0 = nan], and the first row of the matrix built
    from it holds nan, so its sum is not 1. *)
Lemma row_sums_all_dead_counterexample :
  ~ exists M,
      transition_matrix notebook_globals (np_array [0; 0; 0; 0; 1; 0]) 0 = Ok M
      /\ row_stochastic M.
Proof.
  intros (M & E & R).
  vm_compute in E. injection E as <-.
  inversion R as [|row rows Hrow _]. exact Hrow.
Qed.

(** C1, amended: for every population vector of numbers whose contact
    pool [H + C + S + X + I] is not 0 and every phase index of [R_0]
    (the length of sickness not being 0), the matrix built by
    [covid_19_one_day] has six rows and each of them sums to 1. *)
Theorem transition_matrix_row_stochastic
    (g : globals) (cm : nat) (r h c s x d i : Q) :
  nth_error (R_0 (given g)) cm = Some r ->
  ~ lenght_of_sickness_for_R_0 (given g) == 0 ->
  ~ h + c + s + x + i == 0 ->
  exists M,
    transition_matrix g (np_array [h; c; s; x; d; i]) cm = Ok M
    /\ length M = 6%nat
    /\ row_stochastic M.
Proof.
  intros Hr HL Hden. eexists. split; [|split].
  - apply (transition_matrix_fin g cm r h c s x d i Hr HL Hden).
  - reflexivity.
  - apply covid_19_row_stochastic.
Qed.

Lemma transition_matrix_row_stochastic_witness :
  exists M,
    transition_matrix notebook_globals
      (np_array [0.9; 0.04; 0.03; 0.01; 0.01; 0.01]) 1 = Ok M
    /\ length M = 6%nat
    /\ row_stochastic M.
Proof.
  apply (transition_matrix_row_stochastic notebook_globals 1 1.7).
  - reflexivity.
  - vm_compute. discriminate.
  - vm_compute. discriminate.
Defined.

(** C3: for a population vector [(H, C, S, X, D, I)] with non-negative
    entries and a positive contact pool, [hc] is
    [R_0[countermeasures] / lenght_of_sickness_for_R_0
     * ((C + S + X) / (H + C + S + X + I))], and the matrix is the fixed
    pattern: H -> (H: 1-hc, C: hc); C -> (C: 1-cs-ci, S: cs, I: ci);
    S -> (S: 1-sx-si, X: sx, I: si); X -> (X: 1-xd-xi, D: xd, I: xi);
    D -> (D: 1); I -> (I: 1); every other entry 0. *)
Theorem transition_matrix_pattern
    (g : globals) (cm : nat) (r h c s x d i : Q) :
  nth_error (R_0 (given g)) cm = Some r ->
  ~ lenght_of_sickness_for_R_0 (given g) == 0 ->
  0 <= h -> 0 <= c -> 0 <= s -> 0 <= x -> 0 <= d -> 0 <= i ->
  0 < h + c + s + x + i ->
  exists hc,
    hc_of g (np_array [h; c; s; x; d; i]) cm = Ok (Fin hc)
    /\ hc == r / lenght_of_sickness_for_R_0 (given g)
             * ((c + s + x) / (h + c + s + x + i))
    /\ transition_matrix g (np_array [h; c; s; x; d; i]) cm
       = Ok [ [Fin (1 - hc); Fin hc; Fin 0; Fin 0; Fin 0; Fin 0];
              [Fin 0; Fin (1 - cs g - ci g); Fin (cs g); Fin 0; Fin 0; Fin (ci g)];
              [Fin 0; Fin 0; Fin (1 - sx g - si g); Fin (sx g); Fin 0; Fin (si g)];
              [Fin 0; Fin 0; Fin 0; Fin (1 - xd g - xi g); Fin (xd g); Fin (xi g)];
              [Fin 0; Fin 0; Fin 0; Fin 0; Fin 1; Fin 0];
              [Fin 0; Fin 0; Fin 0; Fin 0; Fin 0; Fin 1] ].
Proof.
  intros Hr HL Hh Hc Hs Hx Hd Hi Hpool.
  assert (Hden : ~ h + c + s + x + i == 0) by lra.
  exists (hc_value g r h c s x i). split; [|split].
  - apply (hc_of_fin g cm r h c s x d i Hr HL Hden).
  - unfold hc_value. field. split; assumption.
  - apply (transition_matrix_fin g cm r h c s x d i Hr HL Hden).
Qed.

Lemma transition_matrix_pattern_witness :
  exists hc,
    hc_of notebook_globals (np_array [0.9; 0.04; 0.03; 0.01; 0.01; 0.01]) 0
    = Ok (Fin hc)
    /\ hc == 2.5 / lenght_of_sickness_for_R_0 (given notebook_globals)
             * ((0.04 + 0.03 + 0.01) / (0.9 + 0.04 + 0.03 + 0.01 + 0.01))
    /\ transition_matrix notebook_globals
         (np_array [0.9; 0.04; 0.03; 0.01; 0.01; 0.01]) 0
       = Ok [ [Fin (1 - hc); Fin hc; Fin 0; Fin 0; Fin 0; Fin 0];
              [Fin 0; Fin (1 - cs notebook_globals - ci notebook_globals);
               Fin (cs notebook_globals); Fin 0; Fin 0; Fin (ci notebook_globals)];
              [Fin 0; Fin 0; Fin (1 - sx notebook_globals - si notebook_globals);
               Fin (sx notebook_globals); Fin 0; Fin (si notebook_globals)];
              [Fin 0; Fin 0; Fin 0; Fin (1 - xd notebook_globals - xi notebook_globals);
               Fin (xd notebook_globals); Fin (xi notebook_globals)];
              [Fin 0; Fin 0; Fin 0; Fin 0; Fin 1; Fin 0];
              [Fin 0; Fin 0; Fin 0; Fin 0; Fin 0; Fin 1] ].
Proof.
  apply (transition_matrix_pattern notebook_globals 0 2.5
           0.9 0.04 0.03 0.01 0.01 0.01); Qdecide.
Defined.

(** C4, as stated, fails: on the vector [(0, 0, 0, 0, 1, 0)], whose
    contact pool is 0, the line that sets [hc] divides [0] by [0] and
    the result is nan, not the number 0. *)
Lemma hc_all_dead_counterexample :
  hc_of notebook_globals (np_array [0; 0; 0; 0; 1; 0]) 0 = Ok NaN
  /\ ~ exists hc,
         hc_of notebook_globals (np_array [0; 0; 0; 0; 1; 0]) 0 = Ok hc
         /\ is_number hc 0.
Proof.
  split; [vm_compute; reflexivity|].
  intros (hc & E & N). vm_compute in E. injection E as <-. exact N.
Qed.

(** C4, amended: the division in the line that sets [hc] is not
    guarded.  For every population vector with non-negative entries
    whose contact pool [H + C + S + X + I] is 0, and every phase index
    of [R_0], [hc] is the float64 division of 0 by 0: nan. *)
Theorem hc_empty_pool_is_nan
    (g : globals) (cm : nat) (r h c s x d i : Q) :
  nth_error (R_0 (given g)) cm = Some r ->
  ~ lenght_of_sickness_for_R_0 (given g) == 0 ->
  0 <= h -> 0 <= c -> 0 <= s -> 0 <= x -> 0 <= d -> 0 <= i ->
  h + c + s + x + i == 0 ->
  hc_of g (np_array [h; c; s; x; d; i]) cm = Ok NaN.
Proof.
  intros Hr HL Hh Hc Hs Hx Hd Hi Hpool.
  unfold hc_of, getitem. simpl. rewrite Hr. simpl.
  rewrite (float_div_ok _ _ HL). simpl.
  apply Qeq_bool_iff in Hpool. rewrite Hpool.
  assert (Hnum : r / lenght_of_sickness_for_R_0 (given g) * (c + s + x) == 0).
  { apply Qeq_bool_iff in Hpool.
    assert (Hz : c + s + x == 0) by lra.
    rewrite Hz. ring. }
  apply Qeq_bool_iff in Hnum. now rewrite Hnum.
Qed.

Lemma hc_empty_pool_is_nan_witness :
  hc_of notebook_globals (np_array [0; 0; 0; 0; 7; 0]) 2 = Ok NaN.
Proof.
  apply (hc_empty_pool_is_nan notebook_globals 2 0.9 0 0 0 0 7 0); Qdecide.
Defined.

(** * The simulation *)

Lemma fractions_sum (v : list Q) : fractions v -> py_sum v == 1.
Proof.
  intros (h & c & s & x & d & i & -> & _ & _ & _ & _ & _ & _ & _ & Hsum).
  unfold py_sum. simpl. rewrite <- Hsum. ring.
Qed.

Lemma head_counts_sum (all_population : Q) (v : list Q) :
  0 < all_population -> fractions v ->
  inject_Z (Zsum (head_counts all_population v)) <= all_population
  /\ all_population - inject_Z (Zsum (head_counts all_population v)) < 6.
Proof.
  intros Hall (h & c & s & x & d & i & -> & Hh & Hc & Hs & Hx & Hd & Hi & _ & Hsum).
  unfold head_counts, Zsum. simpl.
  rewrite !inject_Z_plus.
  assert (Hh' : 0 <= h * all_population) by (apply Qmult_le_0_compat; lra).
  assert (Hc' : 0 <= c * all_population) by (apply Qmult_le_0_compat; lra).
  assert (Hs' : 0 <= s * all_population) by (apply Qmult_le_0_compat; lra).
  assert (Hx' : 0 <= x * all_population) by (apply Qmult_le_0_compat; lra).
  assert (Hd' : 0 <= d * all_population) by (apply Qmult_le_0_compat; lra).
  assert (Hi' : 0 <= i * all_population) by (apply Qmult_le_0_compat; lra).
  pose proof (Qtruncate_le _ Hh'). pose proof (Qtruncate_lt _ Hh').
  pose proof (Qtruncate_le _ Hc'). pose proof (Qtruncate_lt _ Hc').
  pose proof (Qtruncate_le _ Hs'). pose proof (Qtruncate_lt _ Hs').
  pose proof (Qtruncate_le _ Hx'). pose proof (Qtruncate_lt _ Hx').
  pose proof (Qtruncate_le _ Hd'). pose proof (Qtruncate_lt _ Hd').
  pose proof (Qtruncate_le _ Hi'). pose proof (Qtruncate_lt _ Hi').
  assert (Htot : h * all_population + c * all_population + s * all_population
                 + x * all_population + d * all_population + i * all_population
                 == all_population).
  { transitivity ((h + c + s + x + d + i) * all_population); [ring|].
    rewrite Hsum. ring. }
  change (inject_Z 0) with 0.
  split; lra.
Qed.

Lemma head_counts_absorbing (all_population : Q) (v w : list Q) :
  0 < all_population -> fractions v -> fractions w ->
  nth 4 v 0 <= nth 4 w 0 -> nth 5 v 0 <= nth 5 w 0 ->
  (nth (state_index sD) (head_counts all_population v) 0
   <= nth (state_index sD) (head_counts all_population w) 0)%Z
  /\ (nth (state_index sI) (head_counts all_population v) 0
      <= nth (state_index sI) (head_counts all_population w) 0)%Z.
Proof.
  intros Hall (h & c & s & x & d & i & -> & Hh & Hc & Hs & Hx & Hd & Hi & _ & _).
  intros (h' & c' & s' & x' & d' & i' & -> & _) HD HI.
  simpl in *.
  split; apply Qtruncate_mono.
  - apply Qmult_le_0_compat; lra.
  - apply Qmult_le_compat_r; lra.
  - apply Qmult_le_0_compat; lra.
  - apply Qmult_le_compat_r; lra.
Qed.

(** A run from non-negative seeds, not all 0, in closed form. *)
Lemma run_closed (g : globals) (Healthy Dead Immune : Q) (sda la : Z) :
  rates_in_range g = true ->
  0 <= Healthy -> 0 <= Dead -> 0 <= Immune -> 0 < Healthy + Dead + Immune ->
  exists pop_vector v0,
    seed_population g Healthy Dead Immune = Ok pop_vector
    /\ normalized_seed g Healthy Dead Immune = Ok (py_sum pop_vector, v0)
    /\ 0 < py_sum pop_vector
    /\ fractions v0
    /\ (forall n,
          simulation g Healthy Dead Immune (Z.of_nat n) sda la
          = Ok {| countermeasures := countermeasures_after sda la n;
                  population_vector := np_array (vector_after g sda la v0 n);
                  evolution :=
                    map (fun k => head_counts (py_sum pop_vector)
                                    (vector_after g sda la v0 (S k)))
                        (seq 0 n) |})
    /\ (forall total_days,
          simulate_covid19 g Healthy Dead Immune total_days sda la
          = Ok (map (fun k => head_counts (py_sum pop_vector)
                                (vector_after g sda la v0 (S k)))
                    (seq 0 (Z.to_nat total_days)))).
Proof.
  intros Hg HH HD HI Hpos. apply rates_in_range_spec in Hg.
  destruct (normalized_seed_ok g Healthy Dead Immune Hg HH HD HI Hpos)
    as (pop & v0 & E1 & E2 & Hall & Hv0).
  exists pop, v0. repeat split; try assumption.
  - intros n. rewrite (simulation_state_after g _ _ _ _ _ _ _ _ E2).
    rewrite Nat2Z.id. now apply state_after_closed.
  - intros total_days. now apply simulate_covid19_closed.
Qed.

Lemma nth_error_map_seq {A : Type} (f : nat -> A) (n d : nat) :
  (d < n)%nat -> nth_error (map f (seq 0 n)) d = Some (f d).
Proof.
  intros Hd. rewrite nth_error_map.
  rewrite nth_error_nth' with (d := O) by (now rewrite length_seq).
  rewrite seq_nth by assumption. reflexivity.
Qed.

(** C2, amended: for every run from non-negative seeds that are not all
    0, and every day [d] of the run, the population vector of the loop
    after day [d] is a vector of numbers that sums to 1 (the fractions
    of [all_population], the sum of the seed vector): the population
    is conserved before it is reported.  The row [evolution[d]] is the
    truncation of that vector times [all_population], and its sum lies
    within 6 below [all_population]. *)
Theorem population_conserved
    (g : globals) (Healthy Dead Immune : Q) (total_days sda la : Z) :
  rates_in_range g = true ->
  0 <= Healthy -> 0 <= Dead -> 0 <= Immune -> 0 < Healthy + Dead + Immune ->
  exists pop_vector evo,
    seed_population g Healthy Dead Immune = Ok pop_vector
    /\ simulate_covid19 g Healthy Dead Immune total_days sda la = Ok evo
    /\ length evo = Z.to_nat total_days
    /\ forall d, (d < Z.to_nat total_days)%nat ->
       exists st v,
         simulation g Healthy Dead Immune (Z.of_nat (S d)) sda la = Ok st
         /\ population_vector st = np_array v
         /\ py_sum v == 1
         /\ nth_error evo d = Some (head_counts (py_sum pop_vector) v)
         /\ py_sum pop_vector - 6
            < inject_Z (Zsum (head_counts (py_sum pop_vector) v))
            <= py_sum pop_vector.
Proof.
  intros Hg HH HD HI Hpos.
  destruct (run_closed g Healthy Dead Immune sda la Hg HH HD HI Hpos)
    as (pop & v0 & E1 & E2 & Hall & Hv0 & Hsim & Hevo).
  apply rates_in_range_spec in Hg.
  exists pop. eexists. split; [exact E1|]. split; [apply Hevo|].
  split; [now rewrite length_map, length_seq|].
  intros d Hd.
  pose proof (vector_after_fractions g sda la v0 Hg Hv0 (S d)) as Hv.
  eexists. exists (vector_after g sda la v0 (S d)).
  split; [apply Hsim|]. split; [reflexivity|].
  split; [now apply fractions_sum|].
  split; [now rewrite (nth_error_map_seq _ _ _ Hd)|].
  destruct (head_counts_sum (py_sum pop) _ Hall Hv) as [Hle Hlt].
  split; lra.
Qed.

Lemma population_conserved_witness :
  exists pop_vector evo,
    seed_population notebook_globals 999900 100 0 = Ok pop_vector
    /\ simulate_covid19 notebook_globals 999900 100 0 10 600 600 = Ok evo
    /\ length evo = Z.to_nat 10
    /\ forall d, (d < Z.to_nat 10)%nat ->
       exists st v,
         simulation notebook_globals 999900 100 0 (Z.of_nat (S d)) 600 600 = Ok st
         /\ population_vector st = np_array v
         /\ py_sum v == 1
         /\ nth_error evo d = Some (head_counts (py_sum pop_vector) v)
         /\ py_sum pop_vector - 6
            < inject_Z (Zsum (head_counts (py_sum pop_vector) v))
            <= py_sum pop_vector.
Proof.
  apply (population_conserved notebook_globals 999900 100 0 10 600 600); Qdecide.
Defined.

(** C5: in every run from non-negative seeds that are not all 0, the
    Dead count and the Immune count of the trajectory never decrease
    from a day [d] to a later day [d']. *)
Theorem dead_immune_non_decreasing
    (g : globals) (Healthy Dead Immune : Q) (total_days sda la : Z) :
  rates_in_range g = true ->
  0 <= Healthy -> 0 <= Dead -> 0 <= Immune -> 0 < Healthy + Dead + Immune ->
  exists evo,
    simulate_covid19 g Healthy Dead Immune total_days sda la = Ok evo
    /\ length evo = Z.to_nat total_days
    /\ forall d d' row row',
         (d < d')%nat ->
         nth_error evo d = Some row -> nth_error evo d' = Some row' ->
         (nth (state_index sD) row 0 <= nth (state_index sD) row' 0)%Z
         /\ (nth (state_index sI) row 0 <= nth (state_index sI) row' 0)%Z.
Proof.
  intros Hg HH HD HI Hpos.
  destruct (run_closed g Healthy Dead Immune sda la Hg HH HD HI Hpos)
    as (pop & v0 & E1 & E2 & Hall & Hv0 & Hsim & Hevo).
  apply rates_in_range_spec in Hg.
  eexists. split; [apply Hevo|].
  split; [now rewrite length_map, length_seq|].
  intros d d' row row' Hlt Hrow Hrow'.
  assert (Hd' : (d' < Z.to_nat total_days)%nat).
  { assert (Hsome : nth_error
                      (map (fun k => head_counts (py_sum pop)
                                       (vector_after g sda la v0 (S k)))
                           (seq 0 (Z.to_nat total_days))) d' <> None)
      by (rewrite Hrow'; discriminate).
    apply nth_error_Some in Hsome.
    now rewrite length_map, length_seq in Hsome. }
  rewrite nth_error_map_seq in Hrow, Hrow' by lia.
  injection Hrow as <-. injection Hrow' as <-.
  destruct (dead_immune_after_mono g sda la v0 Hg Hv0 (S d) (S d')) as [HDm HIm];
    [lia|].
  apply head_counts_absorbing;
    [ exact Hall
    | exact (vector_after_fractions g sda la v0 Hg Hv0 (S d))
    | exact (vector_after_fractions g sda la v0 Hg Hv0 (S d'))
    | exact HDm
    | exact HIm ].
Qed.

Lemma dead_immune_non_decreasing_witness :
  exists evo,
    simulate_covid19 notebook_globals 999900 100 0 10 600 600 = Ok evo
    /\ length evo = Z.to_nat 10
    /\ forall d d' row row',
         (d < d')%nat ->
         nth_error evo d = Some row -> nth_error evo d' = Some row' ->
         (nth (state_index sD) row 0 <= nth (state_index sD) row' 0)%Z
         /\ (nth (state_index sI) row 0 <= nth (state_index sI) row' 0)%Z.
Proof.
  apply (dead_immune_non_decreasing notebook_globals 999900 100 0 10 600 600);
    Qdecide.
Defined.

(** ** The phase of a day *)

Lemma countermeasures_after_cases (sda la : Z) (d : nat) :
  countermeasures_after sda la (S d)
  = if (la <=? Z.of_nat d)%Z then 2%nat
    else if (sda <=? Z.of_nat d)%Z then 1%nat else 0%nat.
Proof.
  induction d as [|d IH].
  - cbn [countermeasures_after]. now rewrite update_countermeasures_cases.
  - change (countermeasures_after sda la (S (S d)))
      with (update_countermeasures sda la (countermeasures_after sda la (S d))
              (Z.of_nat (S d))).
    rewrite update_countermeasures_cases, IH.
    destruct (la <=? Z.of_nat (S d))%Z eqn:E1; [reflexivity|].
    destruct (sda <=? Z.of_nat (S d))%Z eqn:E2; [reflexivity|].
    apply Z.leb_gt in E1, E2.
    destruct (la <=? Z.of_nat d)%Z eqn:E3; [apply Z.leb_le in E3; lia|].
    destruct (sda <=? Z.of_nat d)%Z eqn:E4; [apply Z.leb_le in E4; lia|].
    reflexivity.
Qed.

Lemma active_phase_mono (sda la d d' : Z) :
  (0 <= d <= d')%Z ->
  (active_phase [0%Z; sda; la] d <= active_phase [0%Z; sda; la] d')%nat.
Proof.
  intros Hd. rewrite !active_phase_cases by lia.
  destruct (la <=? d)%Z eqn:E1, (la <=? d')%Z eqn:E2,
           (sda <=? d)%Z eqn:E3, (sda <=? d')%Z eqn:E4;
    try lia;
    repeat match goal with
           | E : (_ <=? _)%Z = true |- _ => apply Z.leb_le in E
           | E : (_ <=? _)%Z = false |- _ => apply Z.leb_gt in E
           end; lia.
Qed.

(** C6: on every day [d] of a run, the phase the loop hands to
    [covid_19_one_day] is the last phase of the schedule
    [no measures from day 0; social distance from social_distance_after;
     lockdown from lockdown_after] whose onset is at most [d], and the
    phase selected does not decrease from a day to a later day.
    ([before] and [st] are the states of the loop before and after
    day [d].) *)
Theorem phase_of_day
    (g : globals) (Healthy Dead Immune : Q) (sda la : Z) (d : nat) :
  rates_in_range g = true ->
  0 <= Healthy -> 0 <= Dead -> 0 <= Immune -> 0 < Healthy + Dead + Immune ->
  exists before st,
    simulation g Healthy Dead Immune (Z.of_nat d) sda la = Ok before
    /\ simulation g Healthy Dead Immune (Z.of_nat (S d)) sda la = Ok st
    /\ covid_19_one_day g (population_vector before)
         (active_phase [0%Z; sda; la] (Z.of_nat d))
       = Ok (population_vector st)
    /\ countermeasures st = active_phase [0%Z; sda; la] (Z.of_nat d)
    /\ forall d' st',
         (d <= d')%nat ->
         simulation g Healthy Dead Immune (Z.of_nat (S d')) sda la = Ok st' ->
         (countermeasures st <= countermeasures st')%nat.
Proof.
  intros Hg HH HD HI Hpos.
  destruct (run_closed g Healthy Dead Immune sda la Hg HH HD HI Hpos)
    as (pop & v0 & E1 & E2 & Hall & Hv0 & Hsim & Hevo).
  assert (Hcm : countermeasures_after sda la (S d)
                = active_phase [0%Z; sda; la] (Z.of_nat d)).
  { rewrite countermeasures_after_cases, active_phase_cases by lia. reflexivity. }
  do 2 eexists. split; [apply Hsim|]. split; [apply Hsim|].
  cbn [countermeasures population_vector].
  split; [|split; [exact Hcm|]].
  - rewrite <- Hcm.
    apply (step_ok g (rates_in_range_spec g Hg)
             (countermeasures_after sda la (S d)) (vector_after g sda la v0 d)).
    + apply countermeasures_after_le2.
    + apply vector_after_fractions; [now apply rates_in_range_spec | exact Hv0].
  - intros d' st' Hle E.
    assert (Hc : countermeasures st' = countermeasures_after sda la (S d')).
    { rewrite Hsim in E. now injection E as <-. }
    rewrite Hc, !countermeasures_after_cases.
    rewrite <- !active_phase_cases by lia.
    apply active_phase_mono. lia.
Qed.

Lemma phase_of_day_witness :
  exists before st,
    simulation notebook_globals 61000000 100 0 (Z.of_nat 25) 10 20 = Ok before
    /\ simulation notebook_globals 61000000 100 0 (Z.of_nat (S 25)) 10 20 = Ok st
    /\ covid_19_one_day notebook_globals (population_vector before)
         (active_phase [0%Z; 10%Z; 20%Z] (Z.of_nat 25))
       = Ok (population_vector st)
    /\ countermeasures st = active_phase [0%Z; 10%Z; 20%Z] (Z.of_nat 25)
    /\ forall d' st',
         (25 <= d')%nat ->
         simulation notebook_globals 61000000 100 0 (Z.of_nat (S d')) 10 20 = Ok st' ->
         (countermeasures st <= countermeasures st')%nat.
Proof.
  apply (phase_of_day notebook_globals 61000000 100 0 10 20 25); Qdecide.
Defined.

(** C10: in every run from non-negative seeds that are not all 0, the
    row appended on day [d] is, entry by entry,
    [int(num * all_population)] of the population vector of the loop
    after day [d]; its sum is at most [all_population], the sum of
    the seed vector, and falls short of it by less than 6; and the
    first row is taken from the vector after one call of
    [covid_19_one_day] on the normalised seed. *)
Theorem trajectory_truncated
    (g : globals) (Healthy Dead Immune : Q) (total_days sda la : Z) :
  rates_in_range g = true ->
  0 <= Healthy -> 0 <= Dead -> 0 <= Immune -> 0 < Healthy + Dead + Immune ->
  exists pop_vector v0 evo,
    seed_population g Healthy Dead Immune = Ok pop_vector
    /\ normalized_seed g Healthy Dead Immune = Ok (py_sum pop_vector, v0)
    /\ simulate_covid19 g Healthy Dead Immune total_days sda la = Ok evo
    /\ length evo = Z.to_nat total_days
    /\ (forall d, (d < Z.to_nat total_days)%nat ->
        exists st row,
          simulation g Healthy Dead Immune (Z.of_nat (S d)) sda la = Ok st
          /\ nth_error evo d = Some row
          /\ mapM (fun num => int (f64_mul num (Fin (py_sum pop_vector))))
                  (population_vector st) = Ok row
          /\ inject_Z (Zsum row) <= py_sum pop_vector
          /\ py_sum pop_vector - inject_Z (Zsum row) < 6)
    /\ ((0 < total_days)%Z ->
        exists first row,
          covid_19_one_day g (np_array v0) (update_countermeasures sda la 0 0)
          = Ok first
          /\ mapM (fun num => int (f64_mul num (Fin (py_sum pop_vector)))) first
             = Ok row
          /\ nth_error evo 0 = Some row).
Proof.
  intros Hg HH HD HI Hpos.
  destruct (run_closed g Healthy Dead Immune sda la Hg HH HD HI Hpos)
    as (pop & v0 & E1 & E2 & Hall & Hv0 & Hsim & Hevo).
  apply rates_in_range_spec in Hg.
  exists pop, v0. eexists.
  split; [exact E1|]. split; [exact E2|]. split; [apply Hevo|].
  split; [now rewrite length_map, length_seq|]. split.
  - intros d Hd.
    pose proof (vector_after_fractions g sda la v0 Hg Hv0 (S d)) as Hv.
    exists {| countermeasures := countermeasures_after sda la (S d);
              population_vector := np_array (vector_after g sda la v0 (S d));
              evolution :=
                map (fun k => head_counts (py_sum pop)
                                (vector_after g sda la v0 (S k)))
                    (seq 0 (S d)) |}.
    exists (head_counts (py_sum pop) (vector_after g sda la v0 (S d))).
    split; [apply Hsim|].
    split; [now rewrite (nth_error_map_seq _ _ _ Hd)|].
    split; [apply mapM_int_fin|].
    now apply head_counts_sum.
  - intros Hdays.
    exists (np_array (vector_after g sda la v0 1)).
    exists (head_counts (py_sum pop) (vector_after g sda la v0 1)).
    split; [|split].
    + apply (step_ok g Hg (countermeasures_after sda la 1) v0);
        [apply countermeasures_after_le2 | exact Hv0].
    + apply mapM_int_fin.
    + rewrite nth_error_map_seq by lia. reflexivity.
Qed.

Lemma trajectory_truncated_witness :
  exists pop_vector v0 evo,
    seed_population notebook_globals 999900 100 0 = Ok pop_vector
    /\ normalized_seed notebook_globals 999900 100 0 = Ok (py_sum pop_vector, v0)
    /\ simulate_covid19 notebook_globals 999900 100 0 10 600 600 = Ok evo
    /\ length evo = Z.to_nat 10
    /\ (forall d, (d < Z.to_nat 10)%nat ->
        exists st row,
          simulation notebook_globals 999900 100 0 (Z.of_nat (S d)) 600 600 = Ok st
          /\ nth_error evo d = Some row
          /\ mapM (fun num => int (f64_mul num (Fin (py_sum pop_vector))))
                  (population_vector st) = Ok row
          /\ inject_Z (Zsum row) <= py_sum pop_vector
          /\ py_sum pop_vector - inject_Z (Zsum row) < 6)
    /\ ((0 < 10)%Z ->
        exists first row,
          covid_19_one_day notebook_globals (np_array v0)
            (update_countermeasures 600 600 0 0)
          = Ok first
          /\ mapM (fun num => int (f64_mul num (Fin (py_sum pop_vector)))) first
             = Ok row
          /\ nth_error evo 0 = Some row).
Proof.
  apply (trajectory_truncated notebook_globals 999900 100 0 10 600 600); Qdecide.
Defined.

(** * The parameters *)

(** C7, as stated, fails: no statement of the cells checks the sums.
    With half a day for each sojourn of a carrier the cells run to the
    end and leave [cs + ci = 2]. *)
Lemma no_validation_counterexample :
  exists g,
    parameter_cells half_day_carriers = Ok g
    /\ cs g + ci g == 2
    /\ ~ cs g + ci g < 1.
Proof.
  eexists. split; [vm_compute; reflexivity|].
  split; Qdecide.
Qed.

(** C7, amended: the cells validate nothing.  Whenever the divisors
    (the share of hospitalizable among the symptomatic and the six
    average durations) are not 0, the cells run to the end and each
    rate is [probability * 1 / average], whatever the sum of the rates
    that leave one state. *)
Theorem parameter_cells_unvalidated (a : assumptions) :
  ~ w_sum_cdc a / 100 == 0 ->
  ~ carrier_to_symptomatic_avg a == 0 ->
  ~ carrier_to_immune_avg a == 0 ->
  ~ symptomatic_to_hospitalizable_avg a == 0 ->
  ~ symptomatic_to_immune_avg a == 0 ->
  ~ hospitalizable_to_death_avg a == 0 ->
  ~ hospitalizable_to_immune_avg a == 0 ->
  exists g,
    parameter_cells a = Ok g
    /\ cs g = prob_symptomatic_from_carrier g * 1 / carrier_to_symptomatic_avg a
    /\ ci g = prob_immune_from_carrier g * 1 / carrier_to_immune_avg a
    /\ sx g = prob_hospitalizable_from_symptomatic g * 1
              / symptomatic_to_hospitalizable_avg a
    /\ si g = prob_immune_from_symptomatic g * 1 / symptomatic_to_immune_avg a
    /\ xd g = prob_dead_from_hospitalizable g * 1 / hospitalizable_to_death_avg a
    /\ xi g = prob_immune_from_hospitalizable g * 1
              / hospitalizable_to_immune_avg a
    /\ prob_symptomatic_from_carrier g = 1 - asymptomatic_carriers_vs_all a
    /\ prob_immune_from_carrier g = 1 - prob_symptomatic_from_carrier g
    /\ prob_hospitalizable_from_symptomatic g = w_sum_cdc a / 100
    /\ prob_immune_from_symptomatic g = 1 - prob_hospitalizable_from_symptomatic g
    /\ prob_dead_from_hospitalizable g
       = death_rate_cdc a / prob_hospitalizable_from_symptomatic g / 100
    /\ prob_immune_from_hospitalizable g = 1 - prob_dead_from_hospitalizable g.
Proof.
  intros Hw H1 H2 H3 H4 H5 H6. unfold parameter_cells.
  rewrite (float_div_ok _ _ Hw). cbn [bind].
  rewrite (float_div_ok _ _ H1). cbn [bind].
  rewrite (float_div_ok _ _ H2). cbn [bind].
  rewrite (float_div_ok _ _ H3). cbn [bind].
  rewrite (float_div_ok _ _ H4). cbn [bind].
  rewrite (float_div_ok _ _ H5). cbn [bind].
  rewrite (float_div_ok _ _ H6). cbn [bind].
  eexists. split; [reflexivity|]. repeat split.
Qed.

Lemma parameter_cells_unvalidated_witness :
  exists g,
    parameter_cells half_day_carriers = Ok g
    /\ cs g = prob_symptomatic_from_carrier g * 1
              / carrier_to_symptomatic_avg half_day_carriers
    /\ ci g = prob_immune_from_carrier g * 1
              / carrier_to_immune_avg half_day_carriers
    /\ sx g = prob_hospitalizable_from_symptomatic g * 1
              / symptomatic_to_hospitalizable_avg half_day_carriers
    /\ si g = prob_immune_from_symptomatic g * 1
              / symptomatic_to_immune_avg half_day_carriers
    /\ xd g = prob_dead_from_hospitalizable g * 1
              / hospitalizable_to_death_avg half_day_carriers
    /\ xi g = prob_immune_from_hospitalizable g * 1
              / hospitalizable_to_immune_avg half_day_carriers
    /\ prob_symptomatic_from_carrier g
       = 1 - asymptomatic_carriers_vs_all half_day_carriers
    /\ prob_immune_from_carrier g = 1 - prob_symptomatic_from_carrier g
    /\ prob_hospitalizable_from_symptomatic g = w_sum_cdc half_day_carriers / 100
    /\ prob_immune_from_symptomatic g = 1 - prob_hospitalizable_from_symptomatic g
    /\ prob_dead_from_hospitalizable g
       = death_rate_cdc half_day_carriers
         / prob_hospitalizable_from_symptomatic g / 100
    /\ prob_immune_from_hospitalizable g = 1 - prob_dead_from_hospitalizable g.
Proof.
  apply (parameter_cells_unvalidated half_day_carriers); Qdecide.
Defined.

(** With the literals of the notebook the exits of each state sum to
    less than 1. *)
Lemma notebook_rates_below_one :
  parameter_cells notebook = Ok notebook_globals
  /\ cs notebook_globals + ci notebook_globals < 1
  /\ sx notebook_globals + si notebook_globals < 1
  /\ xd notebook_globals + xi notebook_globals < 1.
Proof. repeat split; Qdecide. Qed.

(** * The seed with a ratio equal to 0 *)

(** C8, as stated, fails: with [prob_dead_from_hospitalizable] equal to
    0 the cells of the parameters run to the end without an error, and
    the failure comes when [simulate_covid19] is called, as the
    [ZeroDivisionError] of the division itself. *)
Lemma zero_ratio_counterexample :
  exists g,
    parameter_cells no_deaths = Ok g
    /\ prob_dead_from_hospitalizable g == 0
    /\ seed_population g 999900 100 0 = Raise ZeroDivisionError
    /\ simulate_covid19 g 999900 100 0 10 0 20 = Raise ZeroDivisionError.
Proof.
  eexists. split; [vm_compute; reflexivity|].
  split; [Qdecide|]. split; vm_compute; reflexivity.
Qed.

(** C8, amended: if any of the three ratios of the back-derivation is
    0, no division by 0 passes in silence: the back-derivation of the
    Hospitalizable, Symptomatic and Carrier seeds raises Python's
    [ZeroDivisionError], and so does [simulate_covid19], whatever the
    seeds, the horizon and the schedule. *)
Theorem zero_ratio_raises
    (g : globals) (Healthy Dead Immune : Q) (total_days sda la : Z) :
  prob_dead_from_hospitalizable g == 0
  \/ prob_hospitalizable_from_symptomatic g == 0
  \/ prob_symptomatic_from_carrier g == 0 ->
  seed_population g Healthy Dead Immune = Raise ZeroDivisionError
  /\ simulate_covid19 g Healthy Dead Immune total_days sda la
     = Raise ZeroDivisionError.
Proof.
  intros Hz.
  assert (E : seed_population g Healthy Dead Immune = Raise ZeroDivisionError).
  { unfold seed_population.
    destruct (Qeq_dec (prob_dead_from_hospitalizable g) 0) as [Hd|Hd].
    { now rewrite (float_div_zero _ _ Hd). }
    rewrite (float_div_ok _ _ Hd). cbn [bind].
    destruct (Qeq_dec (prob_hospitalizable_from_symptomatic g) 0) as [Hh|Hh].
    { now rewrite (float_div_zero _ _ Hh). }
    rewrite (float_div_ok _ _ Hh). cbn [bind].
    destruct (Qeq_dec (prob_symptomatic_from_carrier g) 0) as [Hs|Hs].
    { now rewrite (float_div_zero _ _ Hs). }
    destruct Hz as [Hz|[Hz|Hz]]; contradiction. }
  split; [exact E|].
  unfold simulate_covid19, simulation, normalized_seed. now rewrite E.
Qed.

Lemma zero_ratio_raises_witness :
  seed_population
    (globals_of no_deaths) 999900 100 0 = Raise ZeroDivisionError
  /\ simulate_covid19 (globals_of no_deaths) 999900 100 0 10 0 20
     = Raise ZeroDivisionError.
Proof.
  apply (zero_ratio_raises (globals_of no_deaths)).
  left. Qdecide.
Defined.

(** * Enclosures of a run *)

Lemma scale_pos : 0 < inject_Z (Zpos scale).
Proof. reflexivity. Qed.

Lemma inject_Zpos_neq_0 (p : positive) : ~ inject_Z (Zpos p) == 0.
Proof. discriminate. Qed.

Lemma val_inject (z : Z) : val z == inject_Z z / inject_Z (Zpos scale).
Proof. unfold val. apply Qmake_Qdiv. Qed.

Lemma val_le (z1 z2 : Z) : (z1 <= z2)%Z -> val z1 <= val z2.
Proof.
  intros Hz. unfold val, Qle. simpl.
  apply Z.mul_le_mono_nonneg_r; [lia | exact Hz].
Qed.

Lemma val_le_inv (z1 z2 : Z) : val z1 <= val z2 -> (z1 <= z2)%Z.
Proof.
  unfold val, Qle. simpl. intros Hz.
  apply Z.mul_le_mono_pos_r in Hz; [exact Hz | lia].
Qed.

Lemma val_plus (z1 z2 : Z) : val (z1 + z2) == val z1 + val z2.
Proof. unfold val. symmetry. apply Qinv_plus_distr. Qed.

Lemma val_scale_minus (z : Z) : val (Zpos scale - z) == 1 - val z.
Proof.
  rewrite !val_inject. unfold Z.sub. rewrite inject_Z_plus, inject_Z_opp.
  field. pose proof scale_pos. lra.
Qed.

Lemma Zdiv_floor_Q (n m : Z) : inject_Z (n / m) <= inject_Z n / inject_Z m.
Proof. rewrite Zdiv_Qdiv. apply Qfloor_le. Qed.

Lemma Zdiv_ceil_Q (n m : Z) :
  inject_Z n / inject_Z m <= inject_Z (- ((- n) / m)).
Proof.
  pose proof (Zdiv_floor_Q (- n) m) as Hf.
  rewrite inject_Z_opp in *.
  assert (E : - inject_Z n / inject_Z m == - (inject_Z n / inject_Z m)).
  { unfold Qdiv. ring. }
  rewrite E in Hf. lra.
Qed.

Lemma Qnum_den (r : Q) : r == inject_Z (Qnum r) / inject_Z (Zpos (Qden r)).
Proof. destruct r as [a b]. apply Qmake_Qdiv. Qed.

Lemma val_mul_dn (z : Z) (r : Q) : val (mul_dn z r) <= val z * r.
Proof.
  unfold mul_dn. rewrite !val_inject.
  pose proof (Zdiv_floor_Q (z * Qnum r) (Zpos (Qden r))) as Hf.
  rewrite inject_Z_mult in Hf.
  assert (E : inject_Z z / inject_Z (Zpos scale) * r
              == inject_Z z * inject_Z (Qnum r) / inject_Z (Zpos (Qden r))
                 / inject_Z (Zpos scale)).
  { rewrite (Qnum_den r) at 1. field.
    split; apply inject_Zpos_neq_0. }
  rewrite E. apply Qmult_le_compat_r; [exact Hf|].
  apply Qinv_le_0_compat. pose proof scale_pos. lra.
Qed.

Lemma val_mul_up (z : Z) (r : Q) : val z * r <= val (mul_up z r).
Proof.
  unfold mul_up. rewrite !val_inject.
  pose proof (Zdiv_ceil_Q (z * Qnum r) (Zpos (Qden r))) as Hf.
  rewrite inject_Z_mult in Hf.
  assert (E : inject_Z z / inject_Z (Zpos scale) * r
              == inject_Z z * inject_Z (Qnum r) / inject_Z (Zpos (Qden r))
                 / inject_Z (Zpos scale)).
  { rewrite (Qnum_den r) at 1. field.
    split; apply inject_Zpos_neq_0. }
  rewrite E. apply Qmult_le_compat_r; [exact Hf|].
  apply Qinv_le_0_compat. pose proof scale_pos. lra.
Qed.

Lemma val_pos (z : Z) : (0 < z)%Z -> 0 < val z.
Proof. intros Hz. unfold val, Qlt. simpl. lia. Qed.

Lemma val_div_dn (k : Q) (n d : Z) :
  (0 < d)%Z -> val (div_dn k n d) <= k * val n / val d.
Proof.
  intros Hd. unfold div_dn. pose proof (val_pos d Hd) as Hvd.
  pose proof (Zdiv_floor_Q (Qnum k * n * Zpos scale) (Zpos (Qden k) * d)) as Hf.
  rewrite !inject_Z_mult in Hf.
  rewrite val_inject in Hvd. rewrite !val_inject.
  assert (Hd' : 0 < inject_Z d).
  { change 0 with (inject_Z 0). rewrite <- Zlt_Qlt. exact Hd. }
  assert (E : k * (inject_Z n / inject_Z (Zpos scale))
              / (inject_Z d / inject_Z (Zpos scale))
              == inject_Z (Qnum k) * inject_Z n * inject_Z (Zpos scale)
                 / (inject_Z (Zpos (Qden k)) * inject_Z d)
                 / inject_Z (Zpos scale)).
  { rewrite (Qnum_den k) at 1. field.
    repeat split; try lra; apply inject_Zpos_neq_0. }
  rewrite E. apply Qmult_le_compat_r; [exact Hf|].
  apply Qinv_le_0_compat. pose proof scale_pos. lra.
Qed.

Lemma val_div_up (k : Q) (n d : Z) :
  (0 < d)%Z -> k * val n / val d <= val (div_up k n d).
Proof.
  intros Hd. unfold div_up. pose proof (val_pos d Hd) as Hvd.
  pose proof (Zdiv_ceil_Q (Qnum k * n * Zpos scale) (Zpos (Qden k) * d)) as Hf.
  rewrite !inject_Z_mult in Hf.
  rewrite val_inject in Hvd. rewrite !val_inject.
  assert (Hd' : 0 < inject_Z d).
  { change 0 with (inject_Z 0). rewrite <- Zlt_Qlt. exact Hd. }
  assert (E : k * (inject_Z n / inject_Z (Zpos scale))
              / (inject_Z d / inject_Z (Zpos scale))
              == inject_Z (Qnum k) * inject_Z n * inject_Z (Zpos scale)
                 / (inject_Z (Zpos (Qden k)) * inject_Z d)
                 / inject_Z (Zpos scale)).
  { rewrite (Qnum_den k) at 1. field.
    repeat split; try lra; apply inject_Zpos_neq_0. }
  rewrite E. apply Qmult_le_compat_r; [exact Hf|].
  apply Qinv_le_0_compat. pose proof scale_pos. lra.
Qed.

Lemma enclose_within (q : Q) : within (enclose q) q.
Proof.
  unfold within, enclose. cbn [fst snd]. rewrite !val_inject.
  pose proof scale_pos as Hs.
  split.
  - apply Qle_shift_div_r; [exact Hs | apply Qfloor_le].
  - apply Qle_shift_div_l; [exact Hs | apply Qle_ceiling].
Qed.

Lemma reduced_same_rates (g : globals) : same_rates (reduced g) g.
Proof.
  unfold same_rates, reduced. cbn.
  repeat split; try apply Qred_correct.
  induction (R_0 (given g)) as [|r l IH]; constructor;
    [apply Qred_correct | exact IH].
Qed.

Lemma nth_Forall2_Qeq (l l' : list Q) (n : nat) :
  Forall2 Qeq l l' -> nth n l 0 == nth n l' 0.
Proof.
  intros F. revert n. induction F as [|a b l l' Hab F IH]; intros [|n]; simpl;
    try reflexivity; [exact Hab | apply IH].
Qed.

Lemma Qdiv_le_mono (a a' b b' : Q) :
  0 <= a -> a <= a' -> 0 < b' -> b' <= b -> a / b <= a' / b'.
Proof.
  intros Ha Haa Hb' Hbb.
  apply Qle_shift_div_l; [exact Hb'|].
  assert (E : a / b * b' == a * (b' / b)) by (field; lra).
  rewrite E.
  assert (Hq : b' / b <= 1) by (apply Qle_shift_div_r; lra).
  assert (Hq0 : 0 <= b' / b) by (apply Qle_shift_div_l; lra).
  assert (Hm : a * (b' / b) <= a * 1).
  { rewrite !(Qmult_comm a). apply Qmult_le_compat_r; assumption. }
  lra.
Qed.

Lemma Qmult_le_mono (a a' b b' : Q) :
  0 <= a -> a <= a' -> 0 <= b -> b <= b' -> a * b <= a' * b'.
Proof.
  intros Ha Haa Hb Hbb.
  apply Qle_trans with (a' * b).
  - apply Qmult_le_compat_r; assumption.
  - rewrite !(Qmult_comm a'). apply Qmult_le_compat_r; [assumption | lra].
Qed.

(** A rate times a bounded entry. *)
Lemma term_dn (z : Z) (q r r' : Q) :
  val z <= q -> r == r' -> 0 <= r' -> val (mul_dn z r) <= q * r'.
Proof.
  intros Hz Hr Hr'. pose proof (val_mul_dn z r) as Hm.
  assert (E : val z * r == val z * r') by (rewrite Hr; reflexivity).
  assert (val z * r' <= q * r') by (apply Qmult_le_compat_r; assumption).
  lra.
Qed.

Lemma term_up (z : Z) (q r r' : Q) :
  q <= val z -> r == r' -> 0 <= r' -> q * r' <= val (mul_up z r).
Proof.
  intros Hz Hr Hr'. pose proof (val_mul_up z r) as Hm.
  assert (E : val z * r == val z * r') by (rewrite Hr; reflexivity).
  assert (q * r' <= val z * r') by (apply Qmult_le_compat_r; assumption).
  lra.
Qed.

(** The product of two bounded quantities. *)
Lemma prod_dn (z : Z) (w q p : Q) :
  0 <= val z -> val z <= q -> 0 <= w -> w <= p -> val (mul_dn z w) <= q * p.
Proof.
  intros Hz Hzq Hw Hwp. pose proof (val_mul_dn z w) as Hm.
  pose proof (Qmult_le_mono _ _ _ _ Hz Hzq Hw Hwp). lra.
Qed.

Lemma prod_up (z : Z) (w q p : Q) :
  0 <= q -> q <= val z -> 0 <= p -> p <= w -> q * p <= val (mul_up z w).
Proof.
  intros Hq Hqz Hp Hpw. pose proof (val_mul_up z w) as Hm.
  pose proof (Qmult_le_mono _ _ _ _ Hq Hqz Hp Hpw). lra.
Qed.

Lemma val_nonneg (z : Z) : (0 <= z)%Z -> 0 <= val z.
Proof. intros Hz. unfold val, Qle. simpl. lia. Qed.

Lemma val_pos_inv (z : Z) : 0 < val z -> (0 < z)%Z.
Proof. unfold val, Qlt. simpl. lia. Qed.

Lemma val_scale : val (Zpos scale) == 1.
Proof. reflexivity. Qed.

Section BoxStep.

Variables (rt g : globals) (cm : nat) (b : box).
Variables h c s x d i : Q.

Hypothesis Hrates : same_rates rt g.
Hypothesis G : in_range g.
Hypothesis Hcm : (cm <= 2)%nat.
Hypothesis Hchecks : box_checks rt cm b = true.
Hypothesis Hh : within (bH b) h.
Hypothesis Hc : within (bC b) c.
Hypothesis Hs : within (bS b) s.
Hypothesis Hx : within (bX b) x.
Hypothesis Hd : within (bD b) d.
Hypothesis Hi : within (bI b) i.
Hypothesis Hv : fractions [h; c; s; x; d; i].

Lemma hc_bounds_sound :
  0 <= val (fst (hc_bounds rt cm b))
  /\ val (fst (hc_bounds rt cm b))
     <= hc_value g (nth cm (R_0 (given g)) 0) h c s x i
  /\ hc_value g (nth cm (R_0 (given g)) 0) h c s x i
     <= val (snd (hc_bounds rt cm b))
  /\ val (snd (hc_bounds rt cm b)) <= 1.
Proof.
  set (hc := hc_value g (nth cm (R_0 (given g)) 0) h c s x i).
  destruct Hrates as (HR & HL & _).
  destruct Hv as (h0 & c0 & s0 & x0 & d0 & i0 & E & Fh & Fc & Fs & Fx & Fd & Fi & Fpool & _).
  injection E as <- <- <- <- <- <-.
  unfold within in *.
  unfold box_checks in Hchecks.
  repeat (apply andb_prop in Hchecks; destruct Hchecks as [Hchecks ?]).
  repeat match goal with
         | Hb : (_ <=? _)%Z = true |- _ => apply Z.leb_le in Hb
         | Hb : (_ <? _)%Z = true |- _ => apply Z.ltb_lt in Hb
         end.
  set (kt := nth cm (R_0 (given rt)) 0 / lenght_of_sickness_for_R_0 (given rt)) in *.
  set (kg := nth cm (R_0 (given g)) 0 / lenght_of_sickness_for_R_0 (given g)).
  assert (Hk : kt == kg).
  { unfold kt, kg. rewrite (nth_Forall2_Qeq _ _ cm HR), HL. reflexivity. }
  assert (Hkg : 0 <= kg <= 1).
  { apply (ir_R0 g G). apply nth_In. pose proof (ir_len g G). lia. }
  pose proof (val_nonneg _ Hchecks) as VH.
  match goal with Hz : (0 <= fst (bC b))%Z |- _ => pose proof (val_nonneg _ Hz) as VC end.
  match goal with Hz : (0 <= fst (bS b))%Z |- _ => pose proof (val_nonneg _ Hz) as VS end.
  match goal with Hz : (0 <= fst (bX b))%Z |- _ => pose proof (val_nonneg _ Hz) as VX end.
  match goal with
  | Hz : (0 < _ + _ + _ + _ + _)%Z |- _ => pose proof (val_pos _ Hz) as VP; rename Hz into ZP
  end.
  rewrite !val_plus in VP.
  assert (VQ : 0 < val (snd (bH b) + snd (bC b) + snd (bS b) + snd (bX b) + snd (bI b))).
  { rewrite !val_plus. lra. }
  pose proof (val_pos_inv _ VQ) as ZQ.
  unfold hc_bounds. fold kt. cbn [fst snd].
  pose proof (val_div_dn kt (fst (bC b) + fst (bS b) + fst (bX b)) _ ZQ) as Dn.
  pose proof (val_div_up kt (snd (bC b) + snd (bS b) + snd (bX b)) _ ZP) as Up.
  assert (Ek : forall p q, kt * p / q == kg * p / q)
    by (intros p q; rewrite Hk; reflexivity).
  rewrite Ek in Dn, Up. rewrite !val_plus in Dn, Up.
  assert (Lo : kg * (val (fst (bC b)) + val (fst (bS b)) + val (fst (bX b)))
               / (val (snd (bH b)) + val (snd (bC b)) + val (snd (bS b))
                  + val (snd (bX b)) + val (snd (bI b)))
               <= hc).
  { unfold hc, hc_value. fold kg. apply Qdiv_le_mono; try lra.
    - apply Qmult_le_0_compat; lra.
    - rewrite !(Qmult_comm kg). apply Qmult_le_compat_r; lra. }
  assert (Hi' : hc
                <= kg * (val (snd (bC b)) + val (snd (bS b)) + val (snd (bX b)))
                   / (val (fst (bH b)) + val (fst (bC b)) + val (fst (bS b))
                      + val (fst (bX b)) + val (fst (bI b)))).
  { unfold hc, hc_value. fold kg. apply Qdiv_le_mono; try lra.
    - apply Qmult_le_0_compat; lra.
    - rewrite !(Qmult_comm kg). apply Qmult_le_compat_r; lra. }
  repeat split.
  - apply val_nonneg. assumption.
  - lra.
  - lra.
  - rewrite <- val_scale. apply val_le. assumption.
Qed.

Lemma box_step_sound :
  contains (box_step rt cm b) (step g cm [h; c; s; x; d; i]).
Proof.
  destruct hc_bounds_sound as (B0 & B1 & B2 & B3).
  set (hc := hc_value g (nth cm (R_0 (given g)) 0) h c s x i) in *.
  pose proof (hc_value_range g (nth cm (R_0 (given g)) 0) h c s x i) as Hhc.
  destruct Hrates as (_ & _ & Ecs & Eci & Esx & Esi & Exd & Exi).
  destruct Hv as (h0 & c0 & s0 & x0 & d0 & i0 & E & Fh & Fc & Fs & Fx & Fd & Fi & Fpool & _).
  injection E as <- <- <- <- <- <-.
  assert (Hk : 0 <= nth cm (R_0 (given g)) 0 / lenght_of_sickness_for_R_0 (given g) <= 1).
  { apply (ir_R0 g G). apply nth_In. pose proof (ir_len g G). lia. }
  specialize (Hhc Hk Fh Fc Fs Fx Fi Fpool). fold hc in Hhc.
  unfold box_checks in Hchecks.
  repeat (apply andb_prop in Hchecks; destruct Hchecks as [Hchecks ?]).
  repeat match goal with
         | Hb : (_ <=? _)%Z = true |- _ => apply Z.leb_le in Hb
         | Hb : (_ <? _)%Z = true |- _ => apply Z.ltb_lt in Hb
         end.
  pose proof (val_nonneg _ Hchecks) as VH.
  match goal with Hz : (0 <= fst (bC b))%Z |- _ => pose proof (val_nonneg _ Hz) as VC end.
  destruct G.
  unfold within in *.
  destruct Hh as [Hh1 Hh2], Hc as [Hc1 Hc2], Hs as [Hs1 Hs2],
           Hx as [Hx1 Hx2], Hd as [Hd1 Hd2], Hi as [Hi1 Hi2].
  assert (Sc : 1 - cs rt - ci rt == 1 - cs g - ci g) by (rewrite Ecs, Eci; reflexivity).
  assert (Ss : 1 - sx rt - si rt == 1 - sx g - si g) by (rewrite Esx, Esi; reflexivity).
  assert (Sx : 1 - xd rt - xi rt == 1 - xd g - xi g) by (rewrite Exd, Exi; reflexivity).
  cbn [step]. fold hc. unfold next_vector, contains.
  do 6 eexists. split; [reflexivity|].
  unfold box_step, within. cbn [fst snd bH bC bS bX bD bI].
  rewrite !val_plus.
  set (lo := fst (hc_bounds rt cm b)) in *.
  set (hi := snd (hc_bounds rt cm b)) in *.
  pose proof (val_scale_minus lo) as Elo.
  pose proof (val_scale_minus hi) as Ehi.
  (* the products on each side *)
  pose proof (prod_dn (fst (bH b)) (val (Zpos scale - hi)) h (1 - hc)) as P1.
  pose proof (prod_up (snd (bH b)) (val (Zpos scale - lo)) h (1 - hc)) as P2.
  pose proof (prod_dn (fst (bH b)) (val lo) h hc) as P3.
  pose proof (prod_up (snd (bH b)) (val hi) h hc) as P4.
  pose proof (term_dn (fst (bC b)) c _ _ Hc1 Sc) as T1.
  pose proof (term_up (snd (bC b)) c _ _ Hc2 Sc) as T2.
  pose proof (term_dn (fst (bC b)) c _ _ Hc1 Ecs) as T3.
  pose proof (term_up (snd (bC b)) c _ _ Hc2 Ecs) as T4.
  pose proof (term_dn (fst (bS b)) s _ _ Hs1 Ss) as T5.
  pose proof (term_up (snd (bS b)) s _ _ Hs2 Ss) as T6.
  pose proof (term_dn (fst (bS b)) s _ _ Hs1 Esx) as T7.
  pose proof (term_up (snd (bS b)) s _ _ Hs2 Esx) as T8.
  pose proof (term_dn (fst (bX b)) x _ _ Hx1 Sx) as T9.
  pose proof (term_up (snd (bX b)) x _ _ Hx2 Sx) as T10.
  pose proof (term_dn (fst (bX b)) x _ _ Hx1 Exd) as T11.
  pose proof (term_up (snd (bX b)) x _ _ Hx2 Exd) as T12.
  pose proof (term_dn (fst (bC b)) c _ _ Hc1 Eci) as T13.
  pose proof (term_up (snd (bC b)) c _ _ Hc2 Eci) as T14.
  pose proof (term_dn (fst (bS b)) s _ _ Hs1 Esi) as T15.
  pose proof (term_up (snd (bS b)) s _ _ Hs2 Esi) as T16.
  pose proof (term_dn (fst (bX b)) x _ _ Hx1 Exi) as T17.
  pose proof (term_up (snd (bX b)) x _ _ Hx2 Exi) as T18.
  repeat split; lra.
Qed.

End BoxStep.

Lemma box_of_contains (v : list Q) : fractions v -> contains (box_of v) v.
Proof.
  intros (h & c & s & x & d & i & -> & _).
  exists h, c, s, x, d, i. split; [reflexivity|].
  unfold box_of. cbn [nth bH bC bS bX bD bI].
  repeat split; apply enclose_within.
Qed.

Lemma box_run_succ (rt : globals) (sda la : Z) (n day cm : nat) (b : box) :
  box_run rt sda la (S n) day cm b
  = if box_checks rt (update_countermeasures sda la cm (Z.of_nat day)) b then
      match box_run rt sda la n (S day)
              (update_countermeasures sda la cm (Z.of_nat day))
              (box_step rt (update_countermeasures sda la cm (Z.of_nat day)) b)
      with
      | Some (lo, hi) =>
          Some (Z.max (fst (bX (box_step rt
                                  (update_countermeasures sda la cm (Z.of_nat day))
                                  b))) lo,
                Z.max (snd (bX (box_step rt
                                  (update_countermeasures sda la cm (Z.of_nat day))
                                  b))) hi)
      | None => None
      end
    else None.
Proof. reflexivity. Qed.

Section BoxRun.

Variables (rt g : globals) (sda la : Z) (v0 : list Q).

Hypothesis Hrates : same_rates rt g.
Hypothesis G : in_range g.
Hypothesis Hv0 : fractions v0.

Lemma box_run_sound (n : nat) :
  forall (day cm : nat) (b : box) (lo hi : Z),
    cm = countermeasures_after sda la day ->
    contains b (vector_after g sda la v0 day) ->
    box_run rt sda la n day cm b = Some (lo, hi) ->
    (forall j, (j < n)%nat ->
               nth 3 (vector_after g sda la v0 (S (day + j))) 0 <= val hi)
    /\ (0 <= hi)%Z
    /\ ((lo <= 0)%Z
        \/ exists j, (j < n)%nat
                     /\ val lo <= nth 3 (vector_after g sda la v0 (S (day + j))) 0).
Proof.
  induction n as [|n IH]; intros day cm b lo hi Hcm Hb Hrun.
  - injection Hrun as <- <-. repeat split; [intros j Hj; lia | lia | left; lia].
  - rewrite box_run_succ in Hrun.
    set (cm' := update_countermeasures sda la cm (Z.of_nat day)) in *.
    destruct (box_checks rt cm' b) eqn:Hchecks; [|discriminate].
    destruct (box_run rt sda la n (S day) cm' (box_step rt cm' b))
      as [[lo' hi']|] eqn:Hrec; [|discriminate].
    set (b' := box_step rt cm' b) in *.
    assert (Elo : lo = Z.max (fst (bX b')) lo') by congruence.
    assert (Ehi : hi = Z.max (snd (bX b')) hi') by congruence.
    clear Hrun.
    assert (Hcm' : cm' = countermeasures_after sda la (S day)).
    { unfold cm'. rewrite Hcm. reflexivity. }
    assert (Hle : (cm' <= 2)%nat).
    { rewrite Hcm'. apply countermeasures_after_le2. }
    pose proof (vector_after_fractions g sda la v0 G Hv0 day) as Hfr.
    assert (Hb' : contains b' (vector_after g sda la v0 (S day))).
    { cbn [vector_after]. rewrite <- Hcm'.
      destruct Hb as (h & c & s & x & d & i & E & Wh & Wc & Ws & Wx & Wd & Wi).
      rewrite E in *.
      now apply box_step_sound. }
    destruct (IH (S day) cm' b' lo' hi' Hcm' Hb' Hrec) as (Hup & Hhi & Hlo).
    assert (HX : within (bX b') (nth 3 (vector_after g sda la v0 (S day)) 0)).
    { destruct Hb' as (h & c & s & x & d & i & E & _ & _ & _ & Wx & _).
      rewrite E. exact Wx. }
    destruct HX as [HX1 HX2].
    split; [|split].
    + intros [|j] Hj.
      * rewrite Nat.add_0_r.
        eapply Qle_trans; [exact HX2 | apply val_le; lia].
      * replace (S (day + S j)) with (S (S day + j)) by lia.
        eapply Qle_trans; [apply Hup; lia | apply val_le; lia].
    + lia.
    + destruct (Z.max_spec (fst (bX b')) lo') as [[_ Em]|[_ Em]];
        rewrite Em in Elo; subst lo.
      * destruct Hlo as [Hlo|(j & Hj & Hlo)]; [left; exact Hlo|].
        right. exists (S j). split; [lia|].
        replace (S (day + S j)) with (S (S day + j)) by lia. exact Hlo.
      * right. exists O. split; [lia|]. rewrite Nat.add_0_r. exact HX1.
Qed.

End BoxRun.

(** ** The peak of a trajectory *)

Lemma max_loop_bounds (hi : Z) (evo : list (list Z)) :
  forall m0,
    (m0 <= hi)%Z ->
    (forall row, In row evo ->
                 exists x, nth_error row (state_index sX) = Some x /\ (x <= hi)%Z) ->
    exists p,
      for_loop (fun max_hospitalized state_day =>
                  X <- getitem state_day (state_index sX) ;;
                  Ok (if (X >? max_hospitalized)%Z then X else max_hospitalized))
               evo m0 = Ok p
      /\ (m0 <= p <= hi)%Z
      /\ forall row x, In row evo ->
                       nth_error row (state_index sX) = Some x -> (x <= p)%Z.
Proof.
  induction evo as [|row evo IH]; intros m0 Hm Hrows.
  - exists m0. split; [reflexivity|]. split; [lia|]. intros row x [].
  - destruct (Hrows row (or_introl eq_refl)) as (x & Ex & Hx).
    cbn [for_loop]. unfold getitem at 1. rewrite Ex. cbn [bind].
    set (m1 := if (x >? m0)%Z then x else m0).
    assert (Hm1 : (m0 <= m1 <= hi)%Z /\ (x <= m1)%Z).
    { unfold m1. destruct (x >? m0)%Z eqn:Ecmp; [apply Z.gtb_lt in Ecmp; lia|].
      rewrite Z.gtb_ltb in Ecmp. apply Z.ltb_ge in Ecmp. lia. }
    destruct (IH m1) as (p & Ep & Hp & Hall); [lia | |].
    { intros row' Hin. apply Hrows. now right. }
    exists p. split; [exact Ep|]. split; [lia|].
    intros row' x' [<-|Hin] Ex'.
    + rewrite Ex in Ex'. injection Ex' as <-. lia.
    + now apply (Hall row').
Qed.

Lemma max_hospitalized_bounds (lo hi : Z) (evo : list (list Z)) :
  (0 <= hi)%Z ->
  (forall row, In row evo ->
               exists x, nth_error row (state_index sX) = Some x /\ (x <= hi)%Z) ->
  (exists row x, In row evo /\ nth_error row (state_index sX) = Some x
                 /\ (lo <= x)%Z) ->
  exists p, max_hospitalized evo = Ok p /\ (lo <= p <= hi)%Z.
Proof.
  intros Hhi Hrows (row & x & Hin & Ex & Hlo).
  unfold max_hospitalized.
  assert (Hne : nth_error evo (length evo - 1) <> None).
  { apply nth_error_Some. destruct evo; [destruct Hin | simpl; lia]. }
  unfold getitem at 1.
  destruct (nth_error evo (length evo - 1)) as [final_state|]; [|contradiction].
  cbn [bind].
  destruct (max_loop_bounds hi evo 0%Z Hhi Hrows) as (p & Ep & Hp & Hall).
  exists p. split; [exact Ep|].
  pose proof (Hall row x Hin Ex). lia.
Qed.

Lemma head_counts_X (all_population : Q) (v : list Q) :
  fractions v ->
  nth_error (head_counts all_population v) (state_index sX)
  = Some (Qtruncate (nth 3 v 0 * all_population)).
Proof. intros (h & c & s & x & d & i & -> & _). reflexivity. Qed.

Lemma fractions_X_nonneg (v : list Q) : fractions v -> 0 <= nth 3 v 0.
Proof.
  intros (h & c & s & x & d & i & -> & _ & _ & _ & Hx & _). exact Hx.
Qed.

(** The bounds computed by [peak_bounds] hold for the peak of the run. *)
Lemma peak_bounds_sound (g : globals) (Healthy Dead Immune : Q)
    (total_days sda la : Z) (lo hi : Z) :
  rates_in_range g = true ->
  0 <= Healthy -> 0 <= Dead -> 0 <= Immune -> 0 < Healthy + Dead + Immune ->
  peak_bounds g Healthy Dead Immune total_days sda la = Some (lo, hi) ->
  exists evo p,
    simulate_covid19 g Healthy Dead Immune total_days sda la = Ok evo
    /\ max_hospitalized evo = Ok p
    /\ (lo <= p <= hi)%Z.
Proof.
  intros Hg HH HD HI Hpos Hpb.
  destruct (run_closed g Healthy Dead Immune sda la Hg HH HD HI Hpos)
    as (pop & v0 & E1 & E2 & Hall & Hv0 & Hsim & Hevo).
  apply rates_in_range_spec in Hg.
  unfold peak_bounds in Hpb. rewrite E2 in Hpb.
  destruct (box_run (reduced g) sda la (Z.to_nat total_days) 0 0 (box_of v0))
    as [[zl zh]|] eqn:Hrun; [|discriminate].
  destruct (0 <? zl)%Z eqn:Hzl; [|discriminate].
  apply Z.ltb_lt in Hzl. injection Hpb as <- <-.
  destruct (box_run_sound (reduced g) g sda la v0 (reduced_same_rates g) Hg Hv0
              (Z.to_nat total_days) 0 0 (box_of v0) zl zh eq_refl
              (box_of_contains v0 Hv0) Hrun)
    as (Hup & Hzh & Hlo).
  destruct Hlo as [Hlo|(j & Hj & Hlo)]; [lia|].
  cbn [Nat.add] in Hup, Hlo.
  eexists. 
  destruct (max_hospitalized_bounds
              (Qtruncate (val zl * py_sum pop)) (Qtruncate (val zh * py_sum pop))
              (map (fun k => head_counts (py_sum pop)
                               (vector_after g sda la v0 (S k)))
                   (seq 0 (Z.to_nat total_days))))
    as (p & Ep & Hp).
  - rewrite Qtruncate_floor.
    + change 0%Z with (Qfloor 0). apply Qfloor_resp_le.
      apply Qmult_le_0_compat; [now apply val_nonneg | lra].
    + apply Qmult_le_0_compat; [now apply val_nonneg | lra].
  - intros row Hin. apply in_map_iff in Hin. destruct Hin as (k & <- & Hk).
    apply in_seq in Hk.
    pose proof (vector_after_fractions g sda la v0 Hg Hv0 (S k)) as Hfr.
    eexists. split; [now apply head_counts_X|].
    apply Qtruncate_mono.
    + apply Qmult_le_0_compat; [now apply fractions_X_nonneg | lra].
    + apply Qmult_le_compat_r; [apply Hup; lia | lra].
  - pose proof (vector_after_fractions g sda la v0 Hg Hv0 (S j)) as Hfr.
    exists (head_counts (py_sum pop) (vector_after g sda la v0 (S j))).
    eexists. split; [|split; [now apply head_counts_X|]].
    + apply in_map_iff. exists j. split; [reflexivity|]. apply in_seq. lia.
    + apply Qtruncate_mono.
      * apply Qmult_le_0_compat; [apply val_nonneg; lia | lra].
      * apply Qmult_le_compat_r; [exact Hlo | lra].
  - exists p. split; [apply Hevo|]. split; [exact Ep | exact Hp].
Qed.

(** * The first day of a run, by enclosures *)

Lemma box_after_sound (rt g : globals) (sda la : Z) (v0 : list Q) :
  same_rates rt g -> in_range g -> fractions v0 ->
  forall (n : nat) (b : box),
    box_after rt sda la n (box_of v0) = Some b ->
    contains b (vector_after g sda la v0 n).
Proof.
  intros Hrates G Hv0. induction n as [|n IH]; intros b Hb.
  - injection Hb as <-. now apply box_of_contains.
  - cbn [box_after] in Hb.
    destruct (box_after rt sda la n (box_of v0)) as [b'|]; [|discriminate].
    destruct (box_checks rt (countermeasures_after sda la (S n)) b') eqn:Hchecks;
      [|discriminate].
    injection Hb as <-.
    pose proof (vector_after_fractions g sda la v0 G Hv0 n) as Hfr.
    destruct (IH b' eq_refl) as (h & c & s & x & d & i & E & Wh & Wc & Ws & Wx & Wd & Wi).
    cbn [vector_after]. rewrite E in *.
    apply box_step_sound; try assumption.
    apply countermeasures_after_le2.
Qed.

Lemma within_head_count (iv : Z * Z) (q all_population : Q) :
  (0 <= fst iv)%Z -> 0 <= all_population -> within iv q ->
  (Qtruncate (val (fst iv) * all_population)
   <= Qtruncate (q * all_population)
   <= Qtruncate (val (snd iv) * all_population))%Z.
Proof.
  intros Hlo Hall [H1 H2]. pose proof (val_nonneg _ Hlo) as Hv.
  split; apply Qtruncate_mono.
  - apply Qmult_le_0_compat; assumption.
  - apply Qmult_le_compat_r; assumption.
  - apply Qmult_le_0_compat; [lra | assumption].
  - apply Qmult_le_compat_r; assumption.
Qed.

(** The bounds computed by [row_bounds] hold for the row of day [d]. *)
Lemma row_bounds_sound (g : globals) (Healthy Dead Immune : Q)
    (total_days sda la : Z) (d : nat) (bounds : list (Z * Z)) :
  rates_in_range g = true ->
  0 <= Healthy -> 0 <= Dead -> 0 <= Immune -> 0 < Healthy + Dead + Immune ->
  (d < Z.to_nat total_days)%nat ->
  row_bounds g Healthy Dead Immune sda la d = Some bounds ->
  exists evo row,
    simulate_covid19 g Healthy Dead Immune total_days sda la = Ok evo
    /\ length evo = Z.to_nat total_days
    /\ nth_error evo d = Some row
    /\ Forall2 (fun z iv => (fst iv <= z <= snd iv)%Z) row bounds.
Proof.
  intros Hg HH HD HI Hpos Hd Hrb.
  destruct (run_closed g Healthy Dead Immune sda la Hg HH HD HI Hpos)
    as (pop & v0 & E1 & E2 & Hall & Hv0 & Hsim & Hevo).
  apply rates_in_range_spec in Hg.
  unfold row_bounds in Hrb. rewrite E2 in Hrb.
  destruct (box_after (reduced g) sda la (S d) (box_of v0)) as [b|] eqn:Hb;
    [|discriminate].
  destruct (forallb _ _) eqn:Hnn in Hrb; [|discriminate].
  assert (Ebounds :
            bounds = map (fun iv => (Qtruncate (val (fst iv) * py_sum pop),
                                     Qtruncate (val (snd iv) * py_sum pop)))
                         [bH b; bC b; bS b; bX b; bD b; bI b]) by congruence.
  clear Hrb.
  pose proof (box_after_sound (reduced g) g sda la v0 (reduced_same_rates g) Hg Hv0
                (S d) b Hb) as Hc.
  destruct Hc as (h & c & s & x & dd & i & E & Wh & Wc & Ws & Wx & Wd & Wi).
  cbn [forallb] in Hnn.
  repeat (apply andb_prop in Hnn; destruct Hnn as [? Hnn]).
  repeat match goal with
         | Hz : (_ <=? _)%Z = true |- _ => apply Z.leb_le in Hz
         end.
  assert (Hall' : 0 <= py_sum pop) by lra.
  eexists. exists (head_counts (py_sum pop) (vector_after g sda la v0 (S d))).
  split; [apply Hevo|].
  split; [now rewrite length_map, length_seq|].
  split; [now rewrite (nth_error_map_seq _ _ _ Hd)|].
  rewrite E, Ebounds. unfold head_counts. cbn [map].
  repeat (apply Forall2_cons; [cbn [fst snd]; now apply within_head_count|]).
  apply Forall2_nil.
Qed.

(** Bounds that coincide determine the row. *)
Lemma bounds_pinned (row : list Z) (bounds : list (Z * Z)) :
  Forall2 (fun z iv => (fst iv <= z <= snd iv)%Z) row bounds ->
  map fst bounds = map snd bounds ->
  row = map fst bounds.
Proof.
  induction 1 as [|z iv row bounds Hz _ IH]; intros E; [reflexivity|].
  cbn [map] in *. injection E as E1 E2. f_equal; [lia | now apply IH].
Qed.

(** The first day of the scenario [Healthy = 999900], [Dead = 100],
    [Immune = 0], without measures: the seed vector, truncated entry by
    entry, its sum, and the only row of the trajectory. *)
Lemma scenario_first_day :
  exists pop_vector,
    seed_population notebook_globals 999900 100 0 = Ok pop_vector
    /\ map Qtruncate pop_vector = [999900; 3815; 2543; 929; 100; 0]%Z
    /\ 0 <= py_sum pop_vector
    /\ Qtruncate (py_sum pop_vector) = 1007287%Z
    /\ simulate_covid19 notebook_globals 999900 100 0 1 600 600
       = Ok [[998995; 4236; 2492; 972; 122; 468]%Z].
Proof.
  eexists. split; [vm_compute; reflexivity|].
  split; [vm_compute; reflexivity|].
  split; [vm_compute; discriminate|].
  split; [vm_compute; reflexivity|].
  assert (Hg : rates_in_range notebook_globals = true) by (vm_compute; reflexivity).
  assert (HH : 0 <= 999900) by Qdecide.
  assert (HD : 0 <= 100) by Qdecide.
  assert (HI : 0 <= 0) by Qdecide.
  assert (Hpos : 0 < 999900 + 100 + 0) by Qdecide.
  assert (Hd : (0 < Z.to_nat 1)%nat) by (simpl; lia).
  assert (B : row_bounds notebook_globals 999900 100 0 600 600 0
              = Some [(998995, 998995); (4236, 4236); (2492, 2492);
                      (972, 972); (122, 122); (468, 468)]%Z)
    by (vm_compute; reflexivity).
  destruct (row_bounds_sound _ _ _ _ 1 _ _ _ _ Hg HH HD HI Hpos Hd B)
    as (evo & row & E & Hlen & Hrow & HF).
  assert (Erow : row = [998995; 4236; 2492; 972; 122; 468]%Z)
    by (now apply (bounds_pinned _ _ HF)).
  assert (Eevo : evo = [row]).
  { destruct evo as [|r [|r' evo]]; try discriminate Hlen.
    cbn [nth_error] in Hrow. now injection Hrow as ->. }
  rewrite E, Eevo, Erow. reflexivity.
Qed.

(** C2, as stated, fails: the rows of the trajectory are truncated to
    integers.  From the seed [Healthy = 999900], [Dead = 100],
    [Immune = 0], the seed vector sums to more than 1007287 and the row
    of the first day sums to 1007285: a relative difference of about
    2.4e-6. *)
Lemma conservation_counterexample :
  exists pop_vector row,
    seed_population notebook_globals 999900 100 0 = Ok pop_vector
    /\ simulate_covid19 notebook_globals 999900 100 0 1 600 600 = Ok [row]
    /\ ~ conserved (py_sum pop_vector) row.
Proof.
  destruct scenario_first_day as (pop & Eseed & _ & Hnn & Htr & Erun).
  exists pop, [998995; 4236; 2492; 972; 122; 468]%Z.
  split; [exact Eseed|]. split; [exact Erun|].
  unfold conserved. rewrite Qabs_Qle_condition.
  change (inject_Z (Zsum [998995; 4236; 2492; 972; 122; 468]%Z))
    with (inject_Z 1007285).
  pose proof (Qtruncate_le _ Hnn) as Hlo.
  pose proof (Qtruncate_lt _ Hnn) as Hhi.
  rewrite Htr in Hlo, Hhi.
  assert (E1 : inject_Z 1007287 == 1007287) by reflexivity.
  assert (E2 : inject_Z 1007285 == 1007285) by reflexivity.
  rewrite E1 in Hlo, Hhi. rewrite E2.
  intros [Hl _]. lra.
Qed.

(** The first row of that run is not the seed vector: its Healthy count
    is 998995, and the seed has 999900 healthy. *)
Lemma scenario_first_row_is_not_the_seed :
  exists pop_vector row,
    seed_population notebook_globals 999900 100 0 = Ok pop_vector
    /\ simulate_covid19 notebook_globals 999900 100 0 1 600 600 = Ok [row]
    /\ row <> map Qtruncate pop_vector.
Proof.
  destruct scenario_first_day as (pop & Eseed & Etr & _ & _ & Erun).
  exists pop, [998995; 4236; 2492; 972; 122; 468]%Z.
  split; [exact Eseed|]. split; [exact Erun|].
  rewrite Etr. discriminate.
Qed.

(** * Earlier onsets *)

(** C9, as stated, fails.  With 300 million healthy, 2 dead and nobody
    immune, over 700 days and without a lockdown within the horizon,
    social distance from day 7 gives a peak of 1132946 hospitalizable;
    social distance from day 5, an earlier onset of the stricter phase,
    gives a peak of 1132963. *)
Lemma tightening_counterexample :
  exists evo evo' p p',
    simulate_covid19 notebook_globals 300000000 2 0 700 7 700 = Ok evo
    /\ simulate_covid19 notebook_globals 300000000 2 0 700 5 700 = Ok evo'
    /\ max_hospitalized evo = Ok p
    /\ max_hospitalized evo' = Ok p'
    /\ p = 1132946%Z /\ p' = 1132963%Z
    /\ (p < p')%Z.
Proof.
  assert (Hg : rates_in_range notebook_globals = true) by (vm_compute; reflexivity).
  assert (HH : 0 <= 300000000) by Qdecide.
  assert (HD : 0 <= 2) by Qdecide.
  assert (HI : 0 <= 0) by Qdecide.
  assert (Hpos : 0 < 300000000 + 2 + 0) by Qdecide.
  assert (B : peak_bounds notebook_globals 300000000 2 0 700 7 700
              = Some (1132946, 1132946)%Z) by (vm_compute; reflexivity).
  assert (B' : peak_bounds notebook_globals 300000000 2 0 700 5 700
               = Some (1132963, 1132963)%Z) by (vm_compute; reflexivity).
  destruct (peak_bounds_sound _ _ _ _ _ _ _ _ _ Hg HH HD HI Hpos B)
    as (evo & p & E & M & Hp).
  destruct (peak_bounds_sound _ _ _ _ _ _ _ _ _ Hg HH HD HI Hpos B')
    as (evo' & p' & E' & M' & Hp').
  exists evo, evo', p, p'.
  split; [exact E|]. split; [exact E'|].
  split; [exact M|]. split; [exact M'|].
  lia.
Qed.

(** C9, amended: for identical seeds and horizon, replacing a schedule
    by one whose onsets are equal or earlier makes the phase of every
    day at least as strict, so the [R_0] used on each day is not
    higher.  (The peak of the Hospitalizable can increase all the
    same.) *)
Theorem earlier_onsets_tighten_every_day
    (Healthy Dead Immune : Q) (sda la sda' la' : Z) (d : nat) :
  0 <= Healthy -> 0 <= Dead -> 0 <= Immune -> 0 < Healthy + Dead + Immune ->
  (sda' <= sda)%Z -> (la' <= la)%Z ->
  exists st st',
    simulation notebook_globals Healthy Dead Immune (Z.of_nat (S d)) sda la = Ok st
    /\ simulation notebook_globals Healthy Dead Immune (Z.of_nat (S d)) sda' la'
       = Ok st'
    /\ (countermeasures st <= countermeasures st')%nat
    /\ nth (countermeasures st') (R_0 (given notebook_globals)) 0
       <= nth (countermeasures st) (R_0 (given notebook_globals)) 0.
Proof.
  intros HH HD HI Hpos Hsda Hla.
  assert (Hg : rates_in_range notebook_globals = true) by (vm_compute; reflexivity).
  destruct (run_closed notebook_globals Healthy Dead Immune sda la Hg HH HD HI Hpos)
    as (pop & v0 & _ & _ & _ & _ & Hsim & _).
  destruct (run_closed notebook_globals Healthy Dead Immune sda' la' Hg HH HD HI Hpos)
    as (pop' & v0' & _ & _ & _ & _ & Hsim' & _).
  do 2 eexists. split; [apply Hsim|]. split; [apply Hsim'|].
  cbn [countermeasures]. rewrite !countermeasures_after_cases.
  destruct (la <=? Z.of_nat d)%Z eqn:E1, (la' <=? Z.of_nat d)%Z eqn:E2,
           (sda <=? Z.of_nat d)%Z eqn:E3, (sda' <=? Z.of_nat d)%Z eqn:E4;
    repeat match goal with
           | E : (_ <=? _)%Z = true |- _ => apply Z.leb_le in E
           | E : (_ <=? _)%Z = false |- _ => apply Z.leb_gt in E
           end;
    try lia; split; try lia; Qdecide.
Qed.

Lemma earlier_onsets_tighten_every_day_witness :
  exists st st',
    simulation notebook_globals 300000000 2 0 (Z.of_nat (S 6)) 7 700 = Ok st
    /\ simulation notebook_globals 300000000 2 0 (Z.of_nat (S 6)) 5 700 = Ok st'
    /\ (countermeasures st <= countermeasures st')%nat
    /\ nth (countermeasures st') (R_0 (given notebook_globals)) 0
       <= nth (countermeasures st) (R_0 (given notebook_globals)) 0.
Proof.
  apply (earlier_onsets_tighten_every_day 300000000 2 0 7 700 5 700 6);
    [Qdecide | Qdecide | Qdecide | Qdecide | lia | lia].
Defined.

(** * Plotting and statistics *)

Lemma setitem_ok {A : Type} (l : list A) (i : nat) (a : A) :
  (i < length l)%nat ->
  exists l', setitem l i a = Ok l' /\ length l' = length l.
Proof.
  revert i. induction l as [|x l IH]; intros [|i] Hi; simpl in *; try lia.
  - eexists. split; reflexivity.
  - destruct (IH i) as (l' & E & Hl); [lia|]. rewrite E. cbn [bind].
    eexists. split; [reflexivity|]. simpl. now rewrite Hl.
Qed.

Lemma setitem_out_of_range {A : Type} (l : list A) (i : nat) (a : A) :
  (length l <= i)%nat -> setitem l i a = Raise IndexError.
Proof.
  revert i. induction l as [|x l IH]; intros i Hi; [now destruct i|].
  destruct i as [|i]; simpl in *; [lia|]. rewrite IH by lia. reflexivity.
Qed.

Lemma mapM_cons {A B : Type} (f : A -> result B) (a : A) (l : list A) :
  mapM f (a :: l) = (b <- f a ;; bs <- mapM f l ;; Ok (b :: bs)).
Proof. reflexivity. Qed.

Lemma rotate_row (row : list Z) :
  length row = 6%nat ->
  mapM (getitem row) [1; 2; 3; 4; 5; 0]%nat = Ok (rotate row).
Proof.
  intros Hlen.
  destruct row as [|a [|b [|c [|d [|e [|f [|? ?]]]]]]]; try discriminate.
  reflexivity.
Qed.

Lemma mapM_rotate_rows (evolution : list (list Z)) :
  (forall row, In row evolution -> length row = 6%nat) ->
  mapM (fun r => mapM (getitem r) [1; 2; 3; 4; 5; 0]%nat) evolution
  = Ok (map rotate evolution).
Proof.
  induction evolution as [|row evo IH]; intros Hrows; [reflexivity|].
  rewrite mapM_cons, IH by (intros r Hr; apply Hrows; now right).
  rewrite (rotate_row row) by (apply Hrows; now left).
  reflexivity.
Qed.

Lemma forallb_length (n : nat) (l : list (list Z)) :
  (forall row, In row l -> length row = n) ->
  forallb (fun r => (length r =? n)%nat) l = true.
Proof.
  intros Hrows. apply forallb_forall. intros r Hr. apply Nat.eqb_eq. now apply Hrows.
Qed.

Lemma take_columns_rotates (evolution : list (list Z)) :
  evolution <> [] ->
  (forall row, In row evolution -> length row = 6%nat) ->
  take_columns evolution [1; 2; 3; 4; 5; 0]%nat = Ok (map rotate evolution).
Proof.
  intros Hne Hrows. destruct evolution as [|row evo]; [contradiction|].
  unfold take_columns.
  pose proof (Hrows row (or_introl eq_refl)) as Hrow.
  rewrite (forallb_length (length row) evo)
    by (intros r Hr; rewrite Hrow; apply Hrows; now right).
  exact (mapM_rotate_rows (row :: evo) Hrows).
Qed.

Lemma labels_loop_rotates {A : Type} (labels : list A) :
  length labels = 6%nat ->
  for_loop (fun labels_for_plot i =>
              x <- getitem labels i ;;
              p <- getitem [5; 0; 1; 2; 3; 4]%nat i ;;
              setitem labels_for_plot p x)
           (seq 0 (length labels)) labels
  = Ok (rotate labels).
Proof.
  intros Hlabels.
  destruct labels as [|a [|b [|c [|d [|e [|f [|? ?]]]]]]]; try discriminate.
  reflexivity.
Qed.

Lemma length_rotate {A : Type} (l : list A) : length (rotate l) = length l.
Proof. destruct l as [|a l]; [reflexivity|]. unfold rotate. simpl. rewrite length_app. simpl. lia. Qed.

(** X1: on a non-empty trajectory of six columns and six labels,
    [plot_evolution] builds its DataFrame whatever [np.empty_like] left
    in [idx]; the data are the rows with their first entry moved to the
    end, and the labels are moved in the same way: every column keeps
    its label.  With the labels ['H','C','S','X','D','I'] the columns
    are C, S, X, D, I, H. *)
Theorem plot_evolution_keeps_labels {A : Type} (memory : nat -> nat)
    (evolution : list (list Z)) (labels : list A) :
  evolution <> [] ->
  (forall row, In row evolution -> length row = 6%nat) ->
  length labels = 6%nat ->
  plot_evolution memory evolution labels
  = Ok (map rotate evolution, rotate labels).
Proof.
  intros Hne Hrows Hlabels. unfold plot_evolution.
  cbn [empty_like length seq map scatter_arange combine for_loop setitem
       fst snd bind].
  rewrite (take_columns_rotates evolution Hne Hrows). cbn [bind].
  rewrite (forallb_length 6 evolution Hrows). cbn [bind].
  rewrite (labels_loop_rotates labels Hlabels). cbn [bind].
  now rewrite length_rotate, Hlabels.
Qed.

Lemma plot_evolution_keeps_labels_witness :
  plot_evolution (fun k => (7 * k + 3)%nat)
    [[998995; 4236; 2492; 972; 122; 468]%Z] states
  = Ok (map rotate [[998995; 4236; 2492; 972; 122; 468]%Z], rotate states).
Proof.
  apply (plot_evolution_keeps_labels (fun k => (7 * k + 3)%nat)
           [[998995; 4236; 2492; 972; 122; 468]%Z] states).
  - discriminate.
  - intros row [<-|[]]. reflexivity.
  - reflexivity.
Defined.

Lemma labels_loop_prefix {A : Type} (labels acc : list A) (n : nat) :
  (n <= 6)%nat -> (6 <= length labels)%nat -> length acc = length labels ->
  exists acc',
    for_loop (fun labels_for_plot i =>
                x <- getitem labels i ;;
                p <- getitem [5; 0; 1; 2; 3; 4]%nat i ;;
                setitem labels_for_plot p x)
             (seq 0 n) acc = Ok acc'
    /\ length acc' = length labels.
Proof.
  intros Hn Hlab. revert acc. induction n as [|n IH]; intros acc Hacc.
  - exists acc. split; [reflexivity | exact Hacc].
  - rewrite seq_S, for_loop_app. cbn [Nat.add].
    destruct (IH ltac:(lia) acc Hacc) as (acc1 & E1 & H1). rewrite E1. cbn [bind for_loop].
    unfold getitem at 1.
    destruct (nth_error labels n) as [x|] eqn:Ex;
      [|apply nth_error_None in Ex; lia].
    cbn [bind].
    assert (Hp : exists p, nth_error [5; 0; 1; 2; 3; 4]%nat n = Some p /\ (p < 6)%nat).
    { do 6 (destruct n as [|n]; [eexists; split; [reflexivity | lia]|]). lia. }
    destruct Hp as (p & Ep & Hp). unfold getitem at 1. rewrite Ep. cbn [bind].
    destruct (setitem_ok acc1 p x) as (acc2 & E2 & H2); [lia|].
    rewrite E2. cbn [bind]. exists acc2. split; [reflexivity | lia].
Qed.

(** X2: [plot_evolution] raises IndexError on an empty trajectory (the
    array has one dimension), and, on a trajectory of six columns, for
    every list of labels that holds between one and five labels or more
    than six. *)
Theorem plot_evolution_index_errors {A : Type} (memory : nat -> nat)
    (evolution : list (list Z)) (labels : list A) :
  evolution = []
  \/ ((forall row, In row evolution -> length row = 6%nat)
      /\ length labels <> 0%nat /\ length labels <> 6%nat) ->
  plot_evolution memory evolution labels = Raise IndexError.
Proof.
  intros [->|(Hrows & H0 & H6)]; [reflexivity|].
  destruct evolution as [|row evo]; [reflexivity|].
  unfold plot_evolution.
  cbn [empty_like length seq map scatter_arange combine for_loop setitem
       fst snd bind].
  unfold take_columns.
  pose proof (Hrows row (or_introl eq_refl)) as Hrow.
  rewrite (forallb_length (length row) evo)
    by (intros r Hr; rewrite Hrow; apply Hrows; now right).
  rewrite (mapM_rotate_rows (row :: evo) Hrows). cbn [bind].
  rewrite (forallb_length 6 (row :: evo) Hrows). cbn [bind].
  destruct (Nat.lt_ge_cases (length labels) 6) as [Hshort|Hlong].
  - (* the first assignment, to position 5, is out of range *)
    destruct labels as [|a labels]; [contradiction|].
    cbn [length seq for_loop]. unfold getitem. cbn [nth_error bind].
    rewrite setitem_out_of_range by (simpl in *; lia). reflexivity.
  - (* six assignments pass; the seventh reads [permutation[6]] *)
    assert (Hsplit : seq 0 (length labels)
                     = seq 0 6 ++ 6%nat :: seq 7 (length labels - 7)).
    { replace (length labels) with (6 + (1 + (length labels - 7)))%nat at 1 by lia.
      rewrite seq_app. cbn [Nat.add]. f_equal. }
    rewrite Hsplit, for_loop_app.
    destruct (labels_loop_prefix labels labels 6 (le_n 6) Hlong eq_refl)
      as (acc & E & Hacc).
    rewrite E. cbn [bind for_loop].
    unfold getitem at 1.
    destruct (nth_error labels 6) as [x|] eqn:Ex;
      [|apply nth_error_None in Ex; lia].
    reflexivity.
Qed.

Lemma plot_evolution_index_errors_witness :
  plot_evolution (fun k => k) [[1; 2; 3; 4; 5; 6]%Z] [sH; sC; sS]
  = Raise IndexError.
Proof.
  apply (plot_evolution_index_errors (fun k => k) [[1; 2; 3; 4; 5; 6]%Z]
           [sH; sC; sS]).
  right. split; [|split; discriminate].
  intros row [<-|[]]. reflexivity.
Defined.

Lemma last_row {A : Type} (evolution : list A) :
  evolution <> [] ->
  exists final_state, getitem evolution (length evolution - 1) = Ok final_state.
Proof.
  intros Hne.
  assert (Hlast : nth_error evolution (length evolution - 1) <> None).
  { apply nth_error_Some. destruct evolution; [contradiction | simpl; lia]. }
  unfold getitem.
  destruct (nth_error evolution (length evolution - 1)) as [r|]; [|contradiction].
  now exists r.
Qed.

(** The loop of [stats_evolution] from a running maximum [m0]. *)
Lemma max_loop_spec (evolution : list (list Z)) :
  (forall row, In row evolution -> (state_index sX < length row)%nat) ->
  forall m0,
    exists p,
      for_loop (fun max_hospitalized state_day =>
                  X <- getitem state_day (state_index sX) ;;
                  Ok (if (X >? max_hospitalized)%Z then X
                      else max_hospitalized))
               evolution m0 = Ok p
      /\ (m0 <= p)%Z
      /\ (forall row, In row evolution ->
                      (nth (state_index sX) row 0 <= p)%Z)
      /\ (p = m0 \/ exists row, In row evolution
                                /\ nth (state_index sX) row 0%Z = p).
Proof.
  induction evolution as [|row evo IH]; intros Hrows m0.
  - exists m0. repeat split; [lia | intros row [] | now left].
  - cbn [for_loop]. unfold getitem at 1.
    pose proof (Hrows row (or_introl eq_refl)) as Hlen.
    rewrite (nth_error_nth' row 0%Z Hlen). cbn [bind].
    set (x := nth (state_index sX) row 0%Z).
    set (m1 := if (x >? m0)%Z then x else m0).
    assert (Hm1 : (m0 <= m1)%Z /\ (x <= m1)%Z /\ (m1 = m0 \/ m1 = x)).
    { unfold m1. destruct (x >? m0)%Z eqn:Ecmp.
      - apply Z.gtb_lt in Ecmp. lia.
      - rewrite Z.gtb_ltb in Ecmp. apply Z.ltb_ge in Ecmp. lia. }
    destruct (IH (fun r Hr => Hrows r (or_intror Hr)) m1)
      as (p & Ep & Hp & Hall & Hatt).
    exists p. split; [exact Ep|]. split; [lia|]. split.
    + intros row' [<-|Hin]; [fold x; lia | now apply Hall].
    + destruct Hatt as [->|(row' & Hin & Erow)].
      * destruct Hm1 as (_ & _ & [->| ->]); [now left|].
        right. exists row. split; [now left | reflexivity].
      * right. exists row'. split; [now right | exact Erow].
Qed.

(** X3: [stats_evolution] finds its peak when the trajectory is not
    empty and every row has an entry at the index of X: the peak is
    at least 0 and at least the X count of every day, and it is 0 or
    the X count of some day. *)
Theorem max_hospitalized_is_the_maximum (evolution : list (list Z)) :
  evolution <> [] ->
  (forall row, In row evolution -> (state_index sX < length row)%nat) ->
  exists p,
    max_hospitalized evolution = Ok p
    /\ (0 <= p)%Z
    /\ (forall row, In row evolution -> (nth (state_index sX) row 0 <= p)%Z)
    /\ (p = 0%Z
        \/ exists row, In row evolution /\ nth (state_index sX) row 0%Z = p).
Proof.
  intros Hne Hrows. unfold max_hospitalized.
  destruct (last_row evolution Hne) as (final_state & ->). cbn [bind].
  destruct (max_loop_spec evolution Hrows 0%Z) as (p & Ep & Hp & Hall & Hatt).
  exists p. repeat split; assumption.
Qed.

Lemma max_hospitalized_is_the_maximum_witness :
  exists p,
    max_hospitalized [[5; 4; 3; 2; 1; 0]; [4; 4; 3; 7; 1; 0]; [3; 4; 3; 6; 2; 1]]%Z
    = Ok p
    /\ (0 <= p)%Z
    /\ (forall row,
          In row [[5; 4; 3; 2; 1; 0]; [4; 4; 3; 7; 1; 0]; [3; 4; 3; 6; 2; 1]]%Z ->
          (nth (state_index sX) row 0 <= p)%Z)
    /\ (p = 0%Z
        \/ exists row,
             In row [[5; 4; 3; 2; 1; 0]; [4; 4; 3; 7; 1; 0]; [3; 4; 3; 6; 2; 1]]%Z
             /\ nth (state_index sX) row 0%Z = p).
Proof.
  apply (max_hospitalized_is_the_maximum
           [[5; 4; 3; 2; 1; 0]; [4; 4; 3; 7; 1; 0]; [3; 4; 3; 6; 2; 1]]%Z).
  - discriminate.
  - intros row [<-|[<-|[<-|[]]]]; simpl; lia.
Defined.

(** X4: [stats_evolution] raises IndexError on an empty trajectory and
    on a trajectory with a row too short to hold the X count. *)
Theorem max_hospitalized_index_errors (evolution : list (list Z)) :
  evolution = []
  \/ (exists row, In row evolution /\ (length row <= state_index sX)%nat) ->
  max_hospitalized evolution = Raise IndexError.
Proof.
  intros [->|(row & Hin & Hshort)]; [reflexivity|].
  unfold max_hospitalized.
  assert (Hlast : nth_error evolution (length evolution - 1) <> None).
  { apply nth_error_Some. destruct evolution; [destruct Hin | simpl; lia]. }
  unfold getitem at 1.
  destruct (nth_error evolution (length evolution - 1)); [|contradiction].
  cbn [bind]. clear Hlast.
  generalize 0%Z as m0.
  induction evolution as [|r evo IH]; intros m0; [destruct Hin|].
  cbn [for_loop]. unfold getitem at 1.
  destruct (nth_error r (state_index sX)) as [x|] eqn:Ex; cbn [bind].
  - destruct Hin as [->|Hin].
    + apply nth_error_None in Hshort. congruence.
    + now apply IH.
  - reflexivity.
Qed.

Lemma max_hospitalized_index_errors_witness :
  max_hospitalized [[5; 4; 3; 2; 1; 0]; [4; 4; 3]]%Z = Raise IndexError.
Proof.
  apply (max_hospitalized_index_errors [[5; 4; 3; 2; 1; 0]; [4; 4; 3]]%Z).
  right. exists [4; 4; 3]%Z. split; [right; now left | simpl; lia].
Defined.

(** * More on one day *)

(** X5: for every population of six numbers whose contact pool is not
    0, of any sign, one call of [covid_19_one_day] returns six numbers
    with the same sum: a day moves people between states and neither
    adds nor removes anybody. *)
Theorem covid_19_one_day_conserves
    (g : globals) (cm : nat) (r h c s x d i : Q) :
  nth_error (R_0 (given g)) cm = Some r ->
  ~ lenght_of_sickness_for_R_0 (given g) == 0 ->
  ~ h + c + s + x + i == 0 ->
  exists v,
    covid_19_one_day g (np_array [h; c; s; x; d; i]) cm = Ok (np_array v)
    /\ length v = 6%nat
    /\ py_sum v == py_sum [h; c; s; x; d; i].
Proof.
  intros Hr HL Hden. eexists. split; [|split].
  - apply (covid_19_one_day_fin g cm r h c s x d i Hr HL Hden).
  - reflexivity.
  - unfold py_sum, next_vector. simpl. ring.
Qed.

Lemma covid_19_one_day_conserves_witness :
  exists v,
    covid_19_one_day notebook_globals (np_array [10; (-2); 3; 0; 5; 1]) 2
    = Ok (np_array v)
    /\ length v = 6%nat
    /\ py_sum v == py_sum [10; (-2); 3; 0; 5; 1].
Proof.
  apply (covid_19_one_day_conserves notebook_globals 2 0.9 10 (-2) 3 0 5 1);
    Qdecide.
Defined.

(** X6: with rates in range, the matrix built for a population with
    non-negative entries and a positive contact pool holds only
    probabilities: every entry is a number between 0 and 1, and the
    chance [hc] of contagion is at most [R_0[countermeasures] /
    lenght_of_sickness_for_R_0]. *)
Theorem transition_matrix_probabilities
    (g : globals) (cm : nat) (r h c s x d i : Q) :
  rates_in_range g = true ->
  nth_error (R_0 (given g)) cm = Some r ->
  0 <= h -> 0 <= c -> 0 <= s -> 0 <= x -> 0 <= i ->
  0 < h + c + s + x + i ->
  exists hc M,
    hc_of g (np_array [h; c; s; x; d; i]) cm = Ok (Fin hc)
    /\ 0 <= hc <= r / lenght_of_sickness_for_R_0 (given g)
    /\ transition_matrix g (np_array [h; c; s; x; d; i]) cm = Ok M
    /\ probabilities M.
Proof.
  intros Hg Hr Hh Hc Hs Hx Hi Hpool. apply rates_in_range_spec in Hg.
  assert (Hden : ~ h + c + s + x + i == 0) by lra.
  assert (Hk : 0 <= r / lenght_of_sickness_for_R_0 (given g) <= 1).
  { apply (ir_R0 g Hg). eapply nth_error_In; exact Hr. }
  pose proof (hc_value_range g r h c s x i Hk Hh Hc Hs Hx Hi Hpool) as Hhc.
  assert (Hle : hc_value g r h c s x i <= r / lenght_of_sickness_for_R_0 (given g)).
  { unfold hc_value.
    set (k := r / lenght_of_sickness_for_R_0 (given g)) in *.
    apply Qle_shift_div_r; [exact Hpool|].
    rewrite !(Qmult_comm k). apply Qmult_le_compat_r; lra. }
  exists (hc_value g r h c s x i). eexists.
  split; [apply (hc_of_fin g cm r h c s x d i Hr (ir_L g Hg) Hden)|].
  split; [lra|].
  split; [apply (transition_matrix_fin g cm r h c s x d i Hr (ir_L g Hg) Hden)|].
  destruct Hg.
  unfold probabilities, covid_19. cbn [f64_sub].
  repeat (apply Forall_cons || apply Forall_nil);
    (eexists; split; [reflexivity | lra]).
Qed.

Lemma transition_matrix_probabilities_witness :
  exists hc M,
    hc_of notebook_globals (np_array [0.9; 0.04; 0.03; 0.01; 0.01; 0.01]) 0
    = Ok (Fin hc)
    /\ 0 <= hc <= 2.5 / lenght_of_sickness_for_R_0 (given notebook_globals)
    /\ transition_matrix notebook_globals
         (np_array [0.9; 0.04; 0.03; 0.01; 0.01; 0.01]) 0 = Ok M
    /\ probabilities M.
Proof.
  apply (transition_matrix_probabilities notebook_globals 0 2.5
           0.9 0.04 0.03 0.01 0.01 0.01); Qdecide.
Defined.

(** X7: [covid_19_one_day] raises IndexError when the population has
    fewer than six entries, and when it has at least six and the
    countermeasures are not an index of [R_0]. *)
Theorem covid_19_one_day_index_errors
    (g : globals) (population : list float64) (cm : nat) :
  (length population < 6)%nat
  \/ (length (R_0 (given g)) <= cm)%nat ->
  covid_19_one_day g population cm = Raise IndexError.
Proof.
  intros Hcase. unfold covid_19_one_day, transition_matrix, hc_of, getitem.
  destruct (Nat.lt_ge_cases (length population) 6) as [Hshort|Hlong].
  - do 6 (destruct population as [|? population]; [reflexivity|]).
    simpl in Hshort. lia.
  - destruct Hcase as [Hlt|Hcm]; [lia|].
    do 6 (destruct population as [|? population]; [simpl in Hlong; lia|]).
    cbn [state_index nth_error bind].
    apply nth_error_None in Hcm. rewrite Hcm. reflexivity.
Qed.

Lemma covid_19_one_day_index_errors_witness :
  covid_19_one_day notebook_globals
    (np_array [0.9; 0.04; 0.03; 0.01; 0.01; 0.01]) 3
  = Raise IndexError.
Proof.
  apply (covid_19_one_day_index_errors notebook_globals
           (np_array [0.9; 0.04; 0.03; 0.01; 0.01; 0.01]) 3).
  right. vm_compute. reflexivity.
Defined.

(** X8: on a population of more than six entries, with a valid phase
    and a length of sickness other than 0, [covid_19_one_day] raises
    the ValueError of [np.dot]: the shapes do not agree. *)
Theorem covid_19_one_day_shape_error
    (g : globals) (population : list float64) (cm : nat) (r : Q) :
  (6 < length population)%nat ->
  nth_error (R_0 (given g)) cm = Some r ->
  ~ lenght_of_sickness_for_R_0 (given g) == 0 ->
  covid_19_one_day g population cm = Raise ValueError.
Proof.
  intros Hlong Hr HL.
  unfold covid_19_one_day, transition_matrix, hc_of, getitem.
  do 7 (destruct population as [|? population]; [simpl in Hlong; lia|]).
  cbn [state_index nth_error bind]. rewrite Hr. cbn [bind].
  rewrite (float_div_ok _ _ HL). cbn [bind].
  unfold np_dot. cbn [length covid_19 Nat.eqb]. reflexivity.
Qed.

Lemma covid_19_one_day_shape_error_witness :
  covid_19_one_day notebook_globals
    (np_array [0.9; 0.04; 0.03; 0.01; 0.01; 0.01; 0]) 1
  = Raise ValueError.
Proof.
  apply (covid_19_one_day_shape_error notebook_globals
           (np_array [0.9; 0.04; 0.03; 0.01; 0.01; 0.01; 0]) 1 1.7).
  - simpl. lia.
  - reflexivity.
  - Qdecide.
Defined.

(** * More on the parameters and the seed *)

(** X9: the cells of the parameters either run to the end, and then
    none of their divisors is 0, or raise ZeroDivisionError, and then
    one of their divisors is 0: the share of hospitalizable among the
    symptomatic or one of the six average durations.  They raise
    nothing else. *)
Theorem parameter_cells_raise_only_on_zero (a : assumptions) :
  (exists g,
      parameter_cells a = Ok g
      /\ ~ w_sum_cdc a / 100 == 0
      /\ ~ carrier_to_symptomatic_avg a == 0
      /\ ~ carrier_to_immune_avg a == 0
      /\ ~ symptomatic_to_hospitalizable_avg a == 0
      /\ ~ symptomatic_to_immune_avg a == 0
      /\ ~ hospitalizable_to_death_avg a == 0
      /\ ~ hospitalizable_to_immune_avg a == 0)
  \/ (parameter_cells a = Raise ZeroDivisionError
      /\ (w_sum_cdc a / 100 == 0
          \/ carrier_to_symptomatic_avg a == 0
          \/ carrier_to_immune_avg a == 0
          \/ symptomatic_to_hospitalizable_avg a == 0
          \/ symptomatic_to_immune_avg a == 0
          \/ hospitalizable_to_death_avg a == 0
          \/ hospitalizable_to_immune_avg a == 0)).
Proof.
  unfold parameter_cells.
  destruct (Qeq_dec (w_sum_cdc a / 100) 0) as [Z0|N0];
    [rewrite (float_div_zero _ _ Z0); right; split; [reflexivity | tauto]|].
  rewrite (float_div_ok _ _ N0); cbn [bind].
  destruct (Qeq_dec (carrier_to_symptomatic_avg a) 0) as [Z1|N1];
    [rewrite (float_div_zero _ _ Z1); right; split; [reflexivity | tauto]|].
  rewrite (float_div_ok _ _ N1); cbn [bind].
  destruct (Qeq_dec (carrier_to_immune_avg a) 0) as [Z2|N2];
    [rewrite (float_div_zero _ _ Z2); right; split; [reflexivity | tauto]|].
  rewrite (float_div_ok _ _ N2); cbn [bind].
  destruct (Qeq_dec (symptomatic_to_hospitalizable_avg a) 0) as [Z3|N3];
    [rewrite (float_div_zero _ _ Z3); right; split; [reflexivity | tauto]|].
  rewrite (float_div_ok _ _ N3); cbn [bind].
  destruct (Qeq_dec (symptomatic_to_immune_avg a) 0) as [Z4|N4];
    [rewrite (float_div_zero _ _ Z4); right; split; [reflexivity | tauto]|].
  rewrite (float_div_ok _ _ N4); cbn [bind].
  destruct (Qeq_dec (hospitalizable_to_death_avg a) 0) as [Z5|N5];
    [rewrite (float_div_zero _ _ Z5); right; split; [reflexivity | tauto]|].
  rewrite (float_div_ok _ _ N5); cbn [bind].
  destruct (Qeq_dec (hospitalizable_to_immune_avg a) 0) as [Z6|N6];
    [rewrite (float_div_zero _ _ Z6); right; split; [reflexivity | tauto]|].
  rewrite (float_div_ok _ _ N6); cbn [bind].
  left. eexists. split; [reflexivity|]. tauto.
Qed.

(** X10: where the three ratios are not 0, the seed that
    [simulate_covid19] derives satisfies the assumptions it was derived
    from: the dead are the share [prob_dead_from_hospitalizable] of the
    dead and hospitalizable together, the hospitalizable the share
    [prob_hospitalizable_from_symptomatic] of the hospitalizable and
    symptomatic, the symptomatic the share
    [prob_symptomatic_from_carrier] of the symptomatic and carriers;
    Healthy, Dead and Immune are kept as given. *)
Theorem seed_population_ratios (g : globals) (Healthy Dead Immune : Q) :
  ~ prob_dead_from_hospitalizable g == 0 ->
  ~ prob_hospitalizable_from_symptomatic g == 0 ->
  ~ prob_symptomatic_from_carrier g == 0 ->
  exists Carriers Symptomatic Hospitalizable,
    seed_population g Healthy Dead Immune
    = Ok [Healthy; Carriers; Symptomatic; Hospitalizable; Dead; Immune]
    /\ Dead == prob_dead_from_hospitalizable g * (Dead + Hospitalizable)
    /\ Hospitalizable
       == prob_hospitalizable_from_symptomatic g * (Hospitalizable + Symptomatic)
    /\ Symptomatic
       == prob_symptomatic_from_carrier g * (Symptomatic + Carriers).
Proof.
  intros Hd Hh Hs. unfold seed_population.
  rewrite (float_div_ok _ _ Hd). cbn [bind].
  rewrite (float_div_ok _ _ Hh). cbn [bind].
  rewrite (float_div_ok _ _ Hs). cbn [bind].
  do 3 eexists. split; [reflexivity|].
  repeat split; field; repeat split; assumption.
Qed.

Lemma seed_population_ratios_witness :
  exists Carriers Symptomatic Hospitalizable,
    seed_population notebook_globals 61000000 100 0
    = Ok [61000000; Carriers; Symptomatic; Hospitalizable; 100; 0]
    /\ 100 == prob_dead_from_hospitalizable notebook_globals
              * (100 + Hospitalizable)
    /\ Hospitalizable
       == prob_hospitalizable_from_symptomatic notebook_globals
          * (Hospitalizable + Symptomatic)
    /\ Symptomatic
       == prob_symptomatic_from_carrier notebook_globals
          * (Symptomatic + Carriers).
Proof.
  apply (seed_population_ratios notebook_globals 61000000 100 0); Qdecide.
Defined.

(** X11: where the three ratios are not 0 and the seed vector sums to
    0 (for one, a population of 0 without dead or immune),
    [simulate_covid19] raises ZeroDivisionError when it normalises the
    vector, before the first day. *)
Theorem empty_population_raises
    (g : globals) (Healthy Dead Immune : Q) (total_days sda la : Z)
    (pop_vector : list Q) :
  seed_population g Healthy Dead Immune = Ok pop_vector ->
  py_sum pop_vector == 0 ->
  simulate_covid19 g Healthy Dead Immune total_days sda la
  = Raise ZeroDivisionError.
Proof.
  intros E Hsum.
  assert (Hshape : exists q rest, pop_vector = q :: rest).
  { unfold seed_population in E.
    destruct (float_div _ (prob_dead_from_hospitalizable g)); [|discriminate].
    cbn [bind] in E.
    destruct (float_div _ (prob_hospitalizable_from_symptomatic g)); [|discriminate].
    cbn [bind] in E.
    destruct (float_div _ (prob_symptomatic_from_carrier g)); [|discriminate].
    cbn [bind] in E. injection E as <-. eauto. }
  destruct Hshape as (q & rest & ->).
  unfold simulate_covid19, simulation, normalized_seed. rewrite E. cbn [bind mapM].
  now rewrite (float_div_zero _ _ Hsum).
Qed.

Lemma empty_population_raises_witness :
  simulate_covid19 notebook_globals 0 0 0 300 0 20 = Raise ZeroDivisionError.
Proof.
  apply (empty_population_raises notebook_globals 0 0 0 300 0 20
           (match seed_population notebook_globals 0 0 0 with
            | Ok p => p | Raise _ => [] end)).
  - vm_compute. reflexivity.
  - Qdecide.
Defined.

(** * Along the trajectory *)

Lemma nth_error_map_seq_inv {A : Type} (f : nat -> A) (n d : nat) (a : A) :
  nth_error (map f (seq 0 n)) d = Some a -> (d < n)%nat /\ a = f d.
Proof.
  intros E.
  assert (Hd : (d < n)%nat).
  { assert (Hsome : nth_error (map f (seq 0 n)) d <> None) by congruence.
    apply nth_error_Some in Hsome. now rewrite length_map, length_seq in Hsome. }
  split; [exact Hd|]. rewrite (nth_error_map_seq f n d Hd) in E. congruence.
Qed.

Lemma fractions_entries (v : list Q) :
  fractions v -> length v = 6%nat /\ Forall (fun q => 0 <= q <= 1) v.
Proof.
  intros (h & c & s & x & d & i & -> & Hh & Hc & Hs & Hx & Hd & Hi & _ & Hsum).
  split; [reflexivity|].
  repeat (apply Forall_cons; [lra|]). apply Forall_nil.
Qed.

Lemma head_counts_range (all_population : Q) (v : list Q) :
  0 < all_population -> fractions v ->
  length (head_counts all_population v) = 6%nat
  /\ Forall (fun z => (0 <= z <= Qtruncate all_population)%Z)
            (head_counts all_population v).
Proof.
  intros Hall Hv. destruct (fractions_entries v Hv) as [Hlen Hent].
  unfold head_counts. split; [now rewrite length_map|].
  apply Forall_map. apply (Forall_impl _ (P := fun q => 0 <= q <= 1)); [|exact Hent].
  intros q [Hq0 Hq1].
  assert (Hp : 0 <= q * all_population) by (apply Qmult_le_0_compat; lra).
  assert (Hle : q * all_population <= all_population).
  { assert (Hn : 0 <= (1 - q) * all_population) by (apply Qmult_le_0_compat; lra).
    lra. }
  split.
  - change 0%Z with (Qtruncate 0). apply Qtruncate_mono; [apply Qle_refl | exact Hp].
  - apply Qtruncate_mono; assumption.
Qed.

Lemma step_healthy (g : globals) (cm : nat) (v : list Q) :
  in_range g -> (cm <= 2)%nat -> fractions v ->
  nth 0 (step g cm v) 0 <= nth 0 v 0.
Proof.
  intros G Hcm (h & c & s & x & d & i & -> & Hh & Hc & Hs & Hx & Hd & Hi & Hpool & _).
  assert (Hk : 0 <= nth cm (R_0 (given g)) 0 / lenght_of_sickness_for_R_0 (given g) <= 1).
  { apply (ir_R0 g G). apply nth_In. pose proof (ir_len g G). lia. }
  pose proof (hc_value_range g (nth cm (R_0 (given g)) 0) h c s x i
                Hk Hh Hc Hs Hx Hi Hpool) as Hhc.
  cbn [step next_vector nth].
  set (hc := hc_value g (nth cm (R_0 (given g)) 0) h c s x i) in *.
  assert (Hm : 0 <= h * hc) by (apply Qmult_le_0_compat; lra).
  lra.
Qed.

Lemma healthy_after_mono (g : globals) (sda la : Z) (v0 : list Q) :
  in_range g -> fractions v0 ->
  forall n m, (n <= m)%nat ->
    nth 0 (vector_after g sda la v0 m) 0 <= nth 0 (vector_after g sda la v0 n) 0.
Proof.
  intros G Hv0 n m. induction 1 as [|m Hle IH]; [apply Qle_refl|].
  pose proof (step_healthy g (countermeasures_after sda la (S m))
                (vector_after g sda la v0 m) G
                (countermeasures_after_le2 sda la (S m))
                (vector_after_fractions g sda la v0 G Hv0 m)) as Hs.
  cbn [vector_after]. lra.
Qed.

Lemma head_counts_H (all_population : Q) (v : list Q) :
  fractions v ->
  nth (state_index sH) (head_counts all_population v) 0%Z
  = Qtruncate (nth 0 v 0 * all_population).
Proof. intros (h & c & s & x & d & i & -> & _). reflexivity. Qed.

Lemma fractions_H_nonneg (v : list Q) : fractions v -> 0 <= nth 0 v 0.
Proof.
  intros (h & c & s & x & d & i & -> & Hh & _). exact Hh.
Qed.

(** The normalised seed, entry by entry. *)
Lemma normalized_seed_entries (g : globals) (Healthy Dead Immune : Q)
    (pop_vector v0 : list Q) :
  seed_population g Healthy Dead Immune = Ok pop_vector ->
  normalized_seed g Healthy Dead Immune = Ok (py_sum pop_vector, v0) ->
  ~ py_sum pop_vector == 0 ->
  exists C S X,
    pop_vector = [Healthy; C; S; X; Dead; Immune]
    /\ v0 = [Healthy / py_sum pop_vector; C / py_sum pop_vector;
             S / py_sum pop_vector; X / py_sum pop_vector;
             Dead / py_sum pop_vector; Immune / py_sum pop_vector].
Proof.
  intros E1 E2 Hne.
  assert (Hshape : exists C S X, pop_vector = [Healthy; C; S; X; Dead; Immune]).
  { unfold seed_population in E1.
    destruct (float_div _ (prob_dead_from_hospitalizable g)); [|discriminate].
    cbn [bind] in E1.
    destruct (float_div _ (prob_hospitalizable_from_symptomatic g)); [|discriminate].
    cbn [bind] in E1.
    destruct (float_div _ (prob_symptomatic_from_carrier g)); [|discriminate].
    cbn [bind] in E1. injection E1 as <-. eauto. }
  destruct Hshape as (C & S & X & E).
  exists C, S, X. split; [exact E|].
  unfold normalized_seed in E2. rewrite E1 in E2. cbn [bind] in E2. cbv zeta in E2.
  set (all_population := py_sum pop_vector) in *. clearbody all_population.
  subst pop_vector. cbn [mapM] in E2.
  rewrite !(float_div_ok _ _ Hne) in E2. cbn [bind] in E2.
  congruence.
Qed.

(** X12: in every run from non-negative seeds that are not all 0, the
    Healthy count of the trajectory never increases from a day to a
    later day, and it never exceeds [int(Healthy)], the healthy of the
    seed: nobody returns to Healthy. *)
Theorem healthy_non_increasing
    (g : globals) (Healthy Dead Immune : Q) (total_days sda la : Z) :
  rates_in_range g = true ->
  0 <= Healthy -> 0 <= Dead -> 0 <= Immune -> 0 < Healthy + Dead + Immune ->
  exists evo,
    simulate_covid19 g Healthy Dead Immune total_days sda la = Ok evo
    /\ forall d row,
         nth_error evo d = Some row ->
         (0 <= nth (state_index sH) row 0 <= Qtruncate Healthy)%Z
         /\ forall d' row',
              (d < d')%nat -> nth_error evo d' = Some row' ->
              (nth (state_index sH) row' 0 <= nth (state_index sH) row 0)%Z.
Proof.
  intros Hg HH HD HI Hpos.
  destruct (run_closed g Healthy Dead Immune sda la Hg HH HD HI Hpos)
    as (pop & v0 & E1 & E2 & Hall & Hv0 & Hsim & Hevo).
  apply rates_in_range_spec in Hg.
  assert (Hne : ~ py_sum pop == 0) by lra.
  destruct (normalized_seed_entries g _ _ _ _ _ E1 E2 Hne) as (sC0 & sS0 & sX0 & _ & Ev0).
  assert (Hh0 : nth 0 v0 0 * py_sum pop == Healthy).
  { rewrite Ev0. cbn [nth]. field. exact Hne. }
  eexists. split; [apply Hevo|].
  intros d row Hrow. apply nth_error_map_seq_inv in Hrow. destruct Hrow as [Hd ->].
  pose proof (vector_after_fractions g sda la v0 Hg Hv0 (S d)) as Hfr.
  pose proof (fractions_H_nonneg _ Hfr) as Hnn.
  pose proof (healthy_after_mono g sda la v0 Hg Hv0 0 (S d) ltac:(lia)) as Hmono.
  cbn [vector_after] in Hmono.
  assert (Hp : 0 <= nth 0 (vector_after g sda la v0 (S d)) 0 * py_sum pop)
    by (apply Qmult_le_0_compat; lra).
  assert (Hq : nth 0 (vector_after g sda la v0 (S d)) 0 * py_sum pop <= Healthy).
  { rewrite <- Hh0. apply Qmult_le_compat_r; [exact Hmono | lra]. }
  rewrite (head_counts_H _ _ Hfr).
  split; [split|].
  - change 0%Z with (Qtruncate 0). apply Qtruncate_mono; [apply Qle_refl | exact Hp].
  - apply Qtruncate_mono; assumption.
  - intros d' row' Hlt Hrow'. apply nth_error_map_seq_inv in Hrow'.
    destruct Hrow' as [Hd' ->].
    pose proof (vector_after_fractions g sda la v0 Hg Hv0 (S d')) as Hfr'.
    pose proof (fractions_H_nonneg _ Hfr') as Hnn'.
    rewrite (head_counts_H _ _ Hfr').
    apply Qtruncate_mono.
    + apply Qmult_le_0_compat; lra.
    + apply Qmult_le_compat_r; [|lra].
      apply (healthy_after_mono g sda la v0 Hg Hv0). lia.
Qed.

Lemma healthy_non_increasing_witness :
  exists evo,
    simulate_covid19 notebook_globals 61000000 100 0 300 0 20 = Ok evo
    /\ forall d row,
         nth_error evo d = Some row ->
         (0 <= nth (state_index sH) row 0 <= Qtruncate 61000000)%Z
         /\ forall d' row',
              (d < d')%nat -> nth_error evo d' = Some row' ->
              (nth (state_index sH) row' 0 <= nth (state_index sH) row 0)%Z.
Proof.
  apply (healthy_non_increasing notebook_globals 61000000 100 0 300 0 20); Qdecide.
Defined.

(** X13: in every run from non-negative seeds that are not all 0, every
    row of the trajectory has six entries, and every entry is a count
    between 0 and [int(all_population)]: no head-count is negative and
    none exceeds the population. *)
Theorem counts_within_population
    (g : globals) (Healthy Dead Immune : Q) (total_days sda la : Z) :
  rates_in_range g = true ->
  0 <= Healthy -> 0 <= Dead -> 0 <= Immune -> 0 < Healthy + Dead + Immune ->
  exists pop_vector evo,
    seed_population g Healthy Dead Immune = Ok pop_vector
    /\ simulate_covid19 g Healthy Dead Immune total_days sda la = Ok evo
    /\ forall row, In row evo ->
         length row = 6%nat
         /\ Forall (fun z => (0 <= z <= Qtruncate (py_sum pop_vector))%Z) row.
Proof.
  intros Hg HH HD HI Hpos.
  destruct (run_closed g Healthy Dead Immune sda la Hg HH HD HI Hpos)
    as (pop & v0 & E1 & E2 & Hall & Hv0 & Hsim & Hevo).
  apply rates_in_range_spec in Hg.
  exists pop. eexists. split; [exact E1|]. split; [apply Hevo|].
  intros row Hin. apply in_map_iff in Hin. destruct Hin as (k & <- & _).
  apply head_counts_range; [exact Hall|].
  exact (vector_after_fractions g sda la v0 Hg Hv0 (S k)).
Qed.

Lemma counts_within_population_witness :
  exists pop_vector evo,
    seed_population notebook_globals 61000000 100 0 = Ok pop_vector
    /\ simulate_covid19 notebook_globals 61000000 100 0 300 0 20 = Ok evo
    /\ forall row, In row evo ->
         length row = 6%nat
         /\ Forall (fun z => (0 <= z <= Qtruncate (py_sum pop_vector))%Z) row.
Proof.
  apply (counts_within_population notebook_globals 61000000 100 0 300 0 20); Qdecide.
Defined.



(** X15: with a horizon of 0 days or less, a run from non-negative
    seeds that are not all 0 leaves an empty trajectory, and the call
    of [plot_evolution] that follows raises IndexError, whatever the
    labels: [simulate_covid19] ends there, before [stats_evolution]. *)
Theorem no_day_no_plot {A : Type}
    (g : globals) (Healthy Dead Immune : Q) (total_days sda la : Z)
    (memory : nat -> nat) (labels : list A) :
  rates_in_range g = true ->
  0 <= Healthy -> 0 <= Dead -> 0 <= Immune -> 0 < Healthy + Dead + Immune ->
  (total_days <= 0)%Z ->
  exists evo,
    simulate_covid19 g Healthy Dead Immune total_days sda la = Ok evo
    /\ evo = []
    /\ plot_evolution memory evo labels = Raise IndexError.
Proof.
  intros Hg HH HD HI Hpos Hdays.
  destruct (run_closed g Healthy Dead Immune sda la Hg HH HD HI Hpos)
    as (pop & v0 & _ & _ & _ & _ & _ & Hevo).
  specialize (Hevo total_days).
  assert (En : Z.to_nat total_days = 0%nat) by lia.
  rewrite En in Hevo. cbn [seq map] in Hevo.
  exists []. split; [exact Hevo|]. split; reflexivity.
Qed.

Lemma no_day_no_plot_witness :
  exists evo,
    simulate_covid19 notebook_globals 61000000 100 0 0 0 20 = Ok evo
    /\ evo = []
    /\ plot_evolution (fun k => k) evo states = Raise IndexError.
Proof.
  apply (no_day_no_plot notebook_globals 61000000 100 0 0 0 20 (fun k => k) states);
    [Qdecide | Qdecide | Qdecide | Qdecide | Qdecide | lia].
Defined.

(** * A seed without dead *)





